(** * Sports API client: request orchestration and normalisation

    A shallow embedding of [src/api_client.py] (class [SportsAPIClient]).

    - JSON values, as [response.json()] hands them to the client, are the
      inductive type [json]; a Python [dict] is an association list in
      insertion order.  JSON numbers are modelled as integers; a string is
      the UTF-8 encoding of the Python [str].
    - Python exceptions raised inside the normalisers are values of [exn];
      code that may raise lives in the error monad [result].
    - The client object ([self.cache], [self.last_request_time]), the wall
      clock and the sequence of observable effects are threaded through the
      state monad [io].  What a call draws from outside (the random delay,
      the answer of the transport, the reading of [datetime.now()]) is an
      explicit [environment].
    - Printing, logging, and the construction of URLs and request headers
      leave the client and the results untouched and are not modelled.
    - Of the display layer ([src/sports_cli.py]) the formatters
      [format_match_summary] and [format_event_details] are embedded, over
      the same JSON values. *)

From stdpp Require Import base strings list gmap pretty.
From Stdlib Require Import ZArith Lia.

Open Scope Z_scope.

Set Warnings "-register-all".

(** ** JSON values and the Python operations the client applies to them *)

Inductive json : Type :=
| JNull
| JBool (b : bool)
| JInt (n : Z)
| JStr (s : string)
| JList (xs : list json)
| JDict (kvs : list (string * json)).

Inductive pytype := TNone | TBool | TInt | TStr | TList | TDict.

Definition type_of (v : json) : pytype :=
  match v with
  | JNull => TNone | JBool _ => TBool | JInt _ => TInt
  | JStr _ => TStr | JList _ => TList | JDict _ => TDict
  end.

Definition type_name (t : pytype) : string :=
  match t with
  | TNone => "NoneType" | TBool => "bool" | TInt => "int"
  | TStr => "str" | TList => "list" | TDict => "dict"
  end.

(** The exceptions the normalisers can run into. *)
Inductive exn :=
| AttributeError_get (t : pytype)   (* x.get(...) on a non-dict *)
| TypeError_not_iterable (t : pytype) (* for _ in x *)
| TypeError_no_len (t : pytype)     (* len(x) *)
| TypeError_unhashable (t : pytype) (* x in some_dict *)
| TypeError_gt_int (t : pytype)     (* x > 0 *)
| TypeError_not_subscriptable (t : pytype) (* x[0] *)
| KeyError_0.                       (* some_dict[0] *)

(** [str(e)] for the exceptions above. *)
Definition exn_message (e : exn) : string :=
  match e with
  | AttributeError_get t => "'" +:+ type_name t +:+ "' object has no attribute 'get'"
  | TypeError_not_iterable t => "'" +:+ type_name t +:+ "' object is not iterable"
  | TypeError_no_len t => "object of type '" +:+ type_name t +:+ "' has no len()"
  | TypeError_unhashable t => "unhashable type: '" +:+ type_name t +:+ "'"
  | TypeError_gt_int t =>
      "'>' not supported between instances of '" +:+ type_name t +:+ "' and 'int'"
  | TypeError_not_subscriptable t => "'" +:+ type_name t +:+ "' object is not subscriptable"
  | KeyError_0 => "0"
  end.

Inductive result (A : Type) : Type :=
| Ok (a : A)
| Raise (e : exn).
Arguments Ok {A} a.
Arguments Raise {A} e.

Definition bind {A B} (m : result A) (f : A → result B) : result B :=
  match m with
  | Ok a => f a
  | Raise e => Raise e
  end.

Notation "'let*' x := m 'in' k" := (bind m (λ x, k))
  (at level 10, x name, m at level 100, k at level 200,
   format "'[v' 'let*'  x  :=  m  'in'  '/' k ']'").

(** A list comprehension or [append] loop whose body may raise. *)
Fixpoint map_result {A B} (f : A → result B) (l : list A) : result (list B) :=
  match l with
  | [] => Ok []
  | x :: rest => let* y := f x in let* ys := map_result f rest in Ok (y :: ys)
  end.

(** Python truthiness ([if x:], [x and y], [x or y], [not x]). *)
Definition truthy (v : json) : bool :=
  match v with
  | JNull => false
  | JBool b => b
  | JInt n => negb (n =? 0)
  | JStr s => negb (String.eqb s "")
  | JList xs => match xs with [] => false | _ => true end
  | JDict kvs => match kvs with [] => false | _ => true end
  end.

(** [x or d] *)
Definition py_or (x d : json) : json := if truthy x then x else d.

(** Lookup in a dict in insertion order (keys of a Python dict are unique). *)
Fixpoint dict_lookup {A} (k : string) (kvs : list (string * A)) : option A :=
  match kvs with
  | [] => None
  | (k', v) :: rest => if String.eqb k k' then Some v else dict_lookup k rest
  end.

(** [d[k] = v]: replaces the value in place, or appends a new key. *)
Fixpoint dict_set (k : string) (v : json) (kvs : list (string * json))
  : list (string * json) :=
  match kvs with
  | [] => [(k, v)]
  | (k', v') :: rest =>
      if String.eqb k k' then (k', v) :: rest else (k', v') :: dict_set k v rest
  end.

(** [x.get(k)] and [x.get(k, d)]. *)
Definition py_get_default (x : json) (k : string) (d : json) : result json :=
  match x with
  | JDict kvs => Ok (default d (dict_lookup k kvs))
  | _ => Raise (AttributeError_get (type_of x))
  end.

Definition py_get (x : json) (k : string) : result json :=
  py_get_default x k JNull.

(** The elements visited by [for _ in x]. *)
Fixpoint chars (s : string) : list json :=
  match s with
  | EmptyString => []
  | String c rest => JStr (String c EmptyString) :: chars rest
  end.

Definition py_iter (x : json) : result (list json) :=
  match x with
  | JList xs => Ok xs
  | JDict kvs => Ok (map (λ kv, JStr kv.1) kvs)
  | JStr s => Ok (chars s)
  | _ => Raise (TypeError_not_iterable (type_of x))
  end.

(** [len(x)] *)
Definition py_len (x : json) : result Z :=
  match x with
  | JList xs => Ok (Z.of_nat (length xs))
  | JDict kvs => Ok (Z.of_nat (length kvs))
  | JStr s => Ok (Z.of_nat (String.length s))
  | _ => Raise (TypeError_no_len (type_of x))
  end.

(** [x == n] for an integer literal [n] ([True == 1] and [False == 0]). *)
Definition py_eq_int (x : json) (n : Z) : bool :=
  match x with
  | JInt m => m =? n
  | JBool b => (if b then 1 else 0) =? n
  | _ => false
  end.

(** [x == s] for a string literal [s]. *)
Definition py_eq_str (x : json) (s : string) : bool :=
  match x with
  | JStr t => String.eqb t s
  | _ => false
  end.

(** [x > 0] *)
Definition py_gt_0 (x : json) : result bool :=
  match x with
  | JInt m => Ok (0 <? m)
  | JBool b => Ok b
  | _ => Raise (TypeError_gt_int (type_of x))
  end.

(** [x in d], and [d[x]] when it is, for a dict [d] with string keys. *)
Definition py_dict_find {A} (x : json) (d : list (string * A)) : result (option A) :=
  match x with
  | JStr s => Ok (dict_lookup s d)
  | JList _ | JDict _ => Raise (TypeError_unhashable (type_of x))
  | _ => Ok None
  end.

(** [x[0]], reached only for values that have a length. *)
Definition py_index_0 (x : json) : result json :=
  match x with
  | JList (y :: _) => Ok y
  | JStr (String c _) => Ok (JStr (String c EmptyString))
  | JDict _ => Raise KeyError_0
  | _ => Raise (TypeError_not_subscriptable (type_of x))
  end.

(** [kvs.get(k, d)] on a value known to be a dict. *)
Definition dict_get (kvs : list (string * json)) (k : string) (d : json) : json :=
  default d (dict_lookup k kvs).

(** [x.get(k1, {}).get(k2)] *)
Definition py_get_in (x : json) (k1 k2 : string) : result json :=
  let* y := py_get_default x k1 (JDict []) in py_get y k2.

(** A dict literal: the field expressions are evaluated in order. *)
Fixpoint build_fields (fields : list (string * result json))
  : result (list (string * json)) :=
  match fields with
  | [] => Ok []
  | (k, e) :: rest => let* v := e in let* kvs := build_fields rest in Ok ((k, v) :: kvs)
  end.

Definition build (fields : list (string * result json)) : result json :=
  let* kvs := build_fields fields in Ok (JDict kvs).

(** *** [str(x)] and [repr(x)] *)

Definition squote : Ascii.ascii := Ascii.ascii_of_nat 39.
Definition dquote : Ascii.ascii := Ascii.ascii_of_nat 34.
Definition backslash : Ascii.ascii := Ascii.ascii_of_nat 92.

Fixpoint contains (c : Ascii.ascii) (s : string) : bool :=
  match s with
  | EmptyString => false
  | String c' rest => Ascii.eqb c c' || contains c rest
  end.

Definition hex_digit (n : nat) : Ascii.ascii :=
  Ascii.ascii_of_nat (if (n <? 10)%nat then 48 + n else 87 + n)%nat.

Definition hex_escape (n : nat) : string :=
  String backslash
    ("x" +:+ String (hex_digit (n / 16)) (String (hex_digit (n mod 16)) EmptyString)).

(** One ASCII character of [repr(s)], [q] being the enclosing quote. *)
Definition repr_char (q c : Ascii.ascii) : string :=
  let n := Ascii.nat_of_ascii c in
  if Ascii.eqb c backslash then String backslash (String backslash EmptyString)
  else if Ascii.eqb c q then String backslash (String q EmptyString)
  else if (n =? 10)%nat then String backslash "n"
  else if (n =? 13)%nat then String backslash "r"
  else if (n =? 9)%nat then String backslash "t"
  else if (n <? 32)%nat || (n =? 127)%nat then hex_escape n
  else String c EmptyString.

(** A string is the UTF-8 encoding of the Python [str].  The two bytes
    [0xC2 b] encode the character U+00[b]; of the characters U+0080..U+00FF
    the non-printable ones are the controls U+0080..U+009F, the no-break
    space U+00A0 and the soft hyphen U+00AD, which [repr] writes as [\xb].
    [latin1_escape c1 c2] is that character's number when the bytes [c1 c2]
    encode one of them. *)
Definition latin1_escape (c1 c2 : Ascii.ascii) : option nat :=
  let n := Ascii.nat_of_ascii c2 in
  if (Ascii.nat_of_ascii c1 =? 194)%nat
     && (((128 <=? n)%nat && (n <=? 160)%nat) || (n =? 173)%nat)
  then Some n else None.

(** The characters of [repr(s)] between the quotes.  Characters above U+00FF
    are copied: [repr] escapes those that Python's Unicode tables class as
    non-printable (separators, format characters, unassigned code points),
    which are not modelled. *)
Fixpoint repr_chars (q : Ascii.ascii) (s : string) : string :=
  match s with
  | EmptyString => EmptyString
  | String c rest =>
      match rest with
      | EmptyString => repr_char q c
      | String c' rest' =>
          match latin1_escape c c' with
          | Some n => hex_escape n +:+ repr_chars q rest'
          | None => repr_char q c +:+ repr_chars q rest
          end
      end
  end.

Definition repr_str (s : string) : string :=
  let q := if contains squote s && negb (contains dquote s) then dquote else squote in
  String q (repr_chars q s +:+ String q EmptyString).

Fixpoint join (sep : string) (l : list string) : string :=
  match l with
  | [] => ""
  | [x] => x
  | x :: rest => x +:+ sep +:+ join sep rest
  end.

Fixpoint py_repr (v : json) : string :=
  match v with
  | JNull => "None"
  | JBool b => if b then "True" else "False"
  | JInt n => pretty n
  | JStr s => repr_str s
  | JList xs => "[" +:+ join ", " (map py_repr xs) +:+ "]"
  | JDict kvs =>
      "{" +:+ join ", " (map (λ kv, repr_str kv.1 +:+ ": " +:+ py_repr kv.2) kvs) +:+ "}"
  end.

(** [str(x)], also what an f-string substitutes for [{x}]. *)
Definition py_str (v : json) : string :=
  match v with
  | JStr s => s
  | _ => py_repr v
  end.

(** ** The normaliser *)

(** *** [_extract_main_odds] *)

(** The inner loop [for odd in odds], threading the dict [main_odds]. *)
Fixpoint main_odds_loop (odds : list json) (main_odds : list (string * json))
  : result (list (string * json)) :=
  match odds with
  | [] => Ok main_odds
  | odd :: rest =>
      let* selection_no := py_get odd "no" in
      let* odd_value := py_get odd "odd" in
      main_odds_loop rest
        (if py_eq_int selection_no 1 then dict_set "home_win" odd_value main_odds
         else if py_eq_int selection_no 0 then dict_set "draw" odd_value main_odds
         else if py_eq_int selection_no 2 then dict_set "away_win" odd_value main_odds
         else main_odds)
  end.

(** The outer loop [for market in markets], left by [break] at the first
    market of type 1. *)
Fixpoint main_market_loop (markets : list json) : result (list (string * json)) :=
  match markets with
  | [] => Ok []
  | market :: rest =>
      let* t := py_get market "t" in
      if py_eq_int t 1 then
        let* o := py_get_default market "o" (JList []) in
        let* odds := py_iter o in
        main_odds_loop odds []
      else main_market_loop rest
  end.

Definition _extract_main_odds (markets : json) : result json :=
  let* ms := py_iter markets in
  let* main_odds := main_market_loop ms in
  Ok (JDict main_odds).

(** *** [_get_market_description] *)

Definition market_descriptions (special_odd_value : json) : list (string * string) :=
  let sov d := py_str (py_or special_odd_value (JStr d)) in
  [ ("1.1", "1X2 - Match Result");
    ("1.2", "1X2 - First Half");
    ("1.3", "1X2 - Second Half");
    ("2.92", "Double Chance");
    ("2.719", "Odd/Even Total Goals");
    ("2.720", "Both Teams to Score");
    ("2.604", "Total Goals Over/Under " +:+ sov "2.5");
    ("2.605", "Total Goals Over/Under 1.5");
    ("2.606", "Total Goals Over/Under 3.5");
    ("2.607", "Total Goals Over/Under 0.5");
    ("2.608", "Total Goals Over/Under 4.5");
    ("2.85", "First Half 1X2");
    ("2.88", "1X2 - Match Result (Alternative)");
    ("2.36", "1X2 - Second Half");
    ("2.77", "Double Chance (Alternative)");
    ("2.91", "Odd/Even (Alternative)");
    ("2.89", "Both Teams to Score (Alternative)");
    ("2.84", "First Half - 1X2");
    ("2.4", "Goal Intervals (0-1/2-3/4-5/6+)");
    ("2.821", "Both Teams to Score (Extended)");
    ("2.730", "Team Clean Sheet");
    ("2.729", "Win Either Half");
    ("2.698", "1X2 & Both Teams Score");
    ("2.699", "1X2 & Total Goals");
    ("2.6", "First Half 1X2");
    ("2.1", "Match Result & Total Over/Under " +:+ sov "2.5");
    ("3.1", "Correct Score");
    ("3.2", "Correct Score - First Half");
    ("4.1", "Asian Handicap " +:+ sov "0");
    ("4.2", "Asian Handicap - First Half " +:+ sov "0");
    ("5.1", "Draw No Bet");
    ("5.2", "Draw No Bet - First Half");
    ("6.1", "European Handicap " +:+ sov "0");
    ("6.2", "European Handicap - First Half " +:+ sov "0");
    ("7.1", "Win to Nil");
    ("8.1", "Home Team Total Goals Over/Under " +:+ sov "1.5");
    ("8.2", "Away Team Total Goals Over/Under " +:+ sov "1.5");
    ("9.1", "First Goal Scorer");
    ("9.2", "Last Goal Scorer");
    ("9.3", "Anytime Goal Scorer");
    ("10.1", "Half Time / Full Time");
    ("11.1", "Corners Over/Under " +:+ sov "9.5");
    ("11.2", "Corners Handicap " +:+ sov "0");
    ("12.1", "Cards Over/Under " +:+ sov "3.5");
    ("12.2", "Cards Handicap " +:+ sov "0") ].

Definition subtype_patterns : list (string * string) :=
  [ ("85", "First Half 1X2");
    ("88", "1X2 Alternative");
    ("36", "Second Half 1X2");
    ("77", "Double Chance");
    ("91", "Odd/Even");
    ("89", "Both Teams to Score");
    ("84", "First Half Result");
    ("4", "Goal Intervals");
    ("821", "Both Teams to Score Extended");
    ("730", "Team Clean Sheet");
    ("729", "Win Either Half");
    ("698", "1X2 & Both Teams Score Combo");
    ("699", "1X2 & Total Goals Combo");
    ("6", "First Half 1X2") ].

Definition main_type_descriptions : list (string * string) :=
  [ ("1", "Match Result Markets");
    ("2", "Goals and Statistics");
    ("3", "Correct Score");
    ("4", "Asian Handicap");
    ("5", "Draw No Bet");
    ("6", "European Handicap");
    ("7", "Win to Nil");
    ("8", "Team Total Goals");
    ("9", "Goal Scorers");
    ("10", "Half Time / Full Time");
    ("11", "Corners");
    ("12", "Cards");
    ("13", "Specials");
    ("14", "Player Props");
    ("15", "Team Props") ].

(** The exact-match key [f"{market_type}.{market_sub_type}"]. *)
Definition market_key (market_type market_sub_type : json) : string :=
  py_str market_type +:+ "." +:+ py_str market_sub_type.

(** The last tier: a description keyed by the type code alone. *)
Definition main_type_description
    (market_type market_sub_type special_odd_value : json) : string :=
  let main_desc :=
    default ("Market Type " +:+ py_str market_type)
            (dict_lookup (py_str market_type) main_type_descriptions) in
  if truthy special_odd_value
  then main_desc +:+ " (" +:+ py_str special_odd_value +:+ ")"
  else main_desc +:+ "." +:+ py_str market_sub_type.

Definition _get_market_description
    (market_type market_sub_type special_odd_value : json) : result string :=
  match dict_lookup (market_key market_type market_sub_type)
                    (market_descriptions special_odd_value) with
  | Some description => Ok description
  | None =>
      if py_eq_str market_type "2" then
        if truthy special_odd_value then
          if existsb (λ sel, bool_decide (sel ∈ ["Alt"; "Üst"; "Over"; "Under"])) [""]
          then Ok ("Over/Under " +:+ py_str special_odd_value)
          else if existsb (λ sel, bool_decide (sel ∈ ["1"; "0"; "2"])) [""]
          then Ok ("1X2 with Special Value (" +:+ py_str special_odd_value +:+ ")")
          else Ok ("Goals & Statistics (" +:+ py_str special_odd_value +:+ ")")
        else
          let* pattern := py_dict_find market_sub_type subtype_patterns in
          match pattern with
          | Some description => Ok description
          | None =>
              Ok (main_type_description market_type market_sub_type special_odd_value)
          end
      else Ok (main_type_description market_type market_sub_type special_odd_value)
  end.

(** *** [_categorize_market] *)

Definition _categorize_market (market_type market_sub_type : json) : string :=
  let market_type := py_str market_type in
  if bool_decide (market_type ∈ ["1"; "5"; "10"]) then "main_markets"
  else if bool_decide (market_type ∈ ["2"; "3"; "8"]) then "goals_markets"
  else if bool_decide (market_type ∈ ["4"; "6"]) then "handicap_markets"
  else if bool_decide (market_type ∈ ["7"; "9"; "14"; "15"]) then "player_markets"
  else if bool_decide (market_type ∈ ["11"; "12"; "13"]) then "events_markets"
  else "other_markets".

(** The six categories of the domain model. *)
Definition market_categories : list string :=
  [ "main_markets"; "goals_markets"; "handicap_markets";
    "player_markets"; "events_markets"; "other_markets" ].

(** *** The matches pipeline: [_process_matches_data]

    [ts] is the reading of [datetime.now().isoformat()] taken by the call. *)

(** The dict [match_data] built for one event. *)
Definition match_data (event : json) : result json :=
  let* i := py_get event "i" in
  let* hn := py_get_default event "hn" (JStr "") in
  let* an := py_get_default event "an" (JStr "") in
  let* d := py_get_default event "d" (JStr "") in
  let* il := py_get_default event "il" (JBool false) in
  let* s := py_get_default event "s" (JStr "") in
  let* sid := py_get_default event "sid" (JStr "") in
  let* m := py_get_default event "m" (JList []) in
  let* main_odds := _extract_main_odds m in
  Ok (JDict [ ("event_id", i);
                ("teams", JStr (py_str hn +:+ " vs " +:+ py_str an));
                ("home_team", hn);
                ("away_team", an);
                ("time", d);
                ("is_live", il);
                ("status", s);
                ("sport_id", sid);
                ("main_odds", main_odds) ]).

(** [live_only and not event.get('il', False)] *)
Definition skipped (live_only : bool) (event : json) : result bool :=
  if live_only then let* il := py_get_default event "il" (JBool false) in Ok (negb (truthy il))
  else Ok false.

(** [limit and len(matches) >= limit] *)
Definition limit_reached (limit : option Z) (matches : list json) : bool :=
  match limit with
  | None => false
  | Some l => negb (l =? 0) && (l <=? Z.of_nat (length matches))
  end.

(** The loop [for event in events], threading the list [matches]. *)
Fixpoint matches_loop (events : list json) (limit : option Z) (live_only : bool)
    (matches : list json) : result (list json) :=
  match events with
  | [] => Ok matches
  | event :: rest =>
      let* skip := skipped live_only event in
      if skip then matches_loop rest limit live_only matches
      else
        let* match_data := match_data event in
        let matches := matches ++ [match_data] in
        if limit_reached limit matches then Ok matches
        else matches_loop rest limit live_only matches
  end.

Definition matches_success (ts : string) (matches : list json) : json :=
  JDict [ ("success", JBool true);
          ("total_matches", JInt (Z.of_nat (length matches)));
          ("timestamp", JStr ts);
          ("matches", JList matches);
          ("cached", JBool false) ].

Definition matches_failure (ts : string) (error : string) : json :=
  JDict [ ("success", JBool false);
          ("error", JStr error);
          ("timestamp", JStr ts) ].

(** The body of the [try] block. *)
Definition process_matches_body (ts : string) (api_data : json)
    (limit : option Z) (live_only : bool) : result json :=
  let* is_success := py_get api_data "isSuccess" in
  match api_data with
  | JDict kvs =>
      match dict_lookup "data" kvs with
      | Some data =>
          if truthy is_success then
            let* e := py_get_default data "events" (JList []) in
            let* events := py_iter e in
            let* matches := matches_loop events limit live_only [] in
            Ok (matches_success ts matches)
          else Ok (matches_failure ts "Invalid API response format")
      | None => Ok (matches_failure ts "Invalid API response format")
      end
  | _ => Raise (AttributeError_get (type_of api_data))
  end.

Definition _process_matches_data (ts : string) (api_data : json)
    (limit : option Z) (live_only : bool) : json :=
  match process_matches_body ts api_data limit live_only with
  | Ok r => r
  | Raise e => matches_failure ts ("Error processing matches data: " +:+ exn_message e)
  end.

(** *** The event-details pipeline: [_process_detailed_event] *)

Definition selection_info (odd : json) : result json :=
  build [ ("selection_no", py_get odd "no");
          ("name", py_get_default odd "n" (JStr ""));
          ("odd", py_get odd "odd");
          ("winning_odd", py_get odd "wodd");
          ("status", py_get_default odd "s" (JStr "")) ].

Definition market_info (market : json) : result json :=
  let* market_type := py_get_default market "t" (JStr "") in
  let* market_sub_type := py_get_default market "st" (JStr "") in
  let* special_odd_value := py_get_default market "sov" (JStr "") in
  let* i := py_get market "i" in
  let* description := _get_market_description market_type market_sub_type special_odd_value in
  let* s := py_get_default market "s" (JStr "") in
  let* v := py_get_default market "v" (JStr "") in
  let* o := py_get_default market "o" (JList []) in
  let* odds := py_iter o in
  let* selections := map_result selection_info odds in
  Ok (JDict [ ("market_id", i);
                ("market_type", market_type);
                ("market_sub_type", market_sub_type);
                ("market_description", JStr description);
                ("market_category",
                   JStr (_categorize_market market_type market_sub_type));
                ("status", s);
                ("version", v);
                ("special_odd_value", special_odd_value);
                ("selections", JList selections) ]).

Definition detailed_event_body (ts : string) (event_data : json) (event_id : string)
  : result json :=
  let* hn := py_get_default event_data "hn" (JStr "") in
  let* an := py_get_default event_data "an" (JStr "") in
  let* d := py_get_default event_data "d" (JStr "") in
  let* s := py_get_default event_data "s" (JStr "") in
  let* il := py_get_default event_data "il" (JBool false) in
  let* sid := py_get_default event_data "sid" (JStr "") in
  let* i := py_get_default event_data "i" (JStr "") in
  let* mbc := py_get_default event_data "mbc" (JInt 0) in
  let* m := py_get_default event_data "m" (JList []) in
  let* markets_count := py_len m in
  let* markets := py_iter m in
  let* betting_markets := map_result market_info markets in
  Ok (JDict [ ("success", JBool true);
                ("event_id", JStr event_id);
                ("timestamp", JStr ts);
                ("event_info",
                   JDict [ ("name", JStr (py_str hn +:+ " vs " +:+ py_str an));
                           ("home_team", hn);
                           ("away_team", an);
                           ("start_time", d);
                           ("status", s);
                           ("is_live", il);
                           ("sport_id", sid);
                           ("event_id", i);
                           ("match_bet_count", mbc) ]);
                ("markets_count", JInt markets_count);
                ("betting_markets", JList betting_markets) ]).

Definition _process_detailed_event (ts : string) (event_data : json) (event_id : string)
  : json :=
  match detailed_event_body ts event_data event_id with
  | Ok r => r
  | Raise e =>
      JDict [ ("success", JBool false);
              ("error", JStr ("Error processing detailed event: " +:+ exn_message e));
              ("event_id", JStr event_id);
              ("raw_data", event_data) ]
  end.

(** *** The statistics pipeline: [_process_event_statistics]

    Each block of the function is a section: from the raw payload (already
    known to be a dict) it computes the value assigned to its field of
    [result], or [None] when the block leaves [result] alone. *)

Definition section := list (string * json) → result (option json).

(** [if x: result[...] = value] *)
Definition when_truthy (x : json) (value : result json) : result (option json) :=
  if truthy x then let* v := value in Ok (Some v) else Ok None.

Definition event_information (stats_data : list (string * json)) : result (option json) :=
  let event_info := dict_get stats_data "eventInformationModel" (JDict []) in
  when_truthy event_info
    (build
      [ ("event_id", py_get event_info "eventId");
        ("event_date", py_get event_info "eventDate");
        ("home_team", build
          [ ("id", py_get_in event_info "homeTeam" "id");
            ("name", py_get_in event_info "homeTeam" "name");
            ("short_name", py_get_in event_info "homeTeam" "shortName");
            ("logo", py_get_in event_info "homeTeam" "logo") ]);
        ("away_team", build
          [ ("id", py_get_in event_info "awayTeam" "id");
            ("name", py_get_in event_info "awayTeam" "name");
            ("short_name", py_get_in event_info "awayTeam" "shortName");
            ("logo", py_get_in event_info "awayTeam" "logo") ]);
        ("tournament", build
          [ ("id", py_get_in event_info "tournamentInformation" "id");
            ("name", py_get_in event_info "tournamentInformation" "name");
            ("short_name", py_get_in event_info "tournamentInformation" "shortName") ]);
        ("round", build
          [ ("id", py_get_in event_info "roundInformation" "id");
            ("name", py_get_in event_info "roundInformation" "name");
            ("short_name", py_get_in event_info "roundInformation" "shortName") ]);
        ("status", build
          [ ("id", py_get_in event_info "statusInformation" "id");
            ("name", py_get_in event_info "statusInformation" "name") ]);
        ("venue", build
          [ ("stadium", py_get_in event_info "eventPlaceInformation" "stadiumName");
            ("temperature", py_get_in event_info "eventPlaceInformation" "temperatureC");
            ("weather", py_get_in event_info "eventPlaceInformation" "weatherStatus") ]) ]).

(** [if 'tournamentStandingsModel' in stats_data: ...] *)
Definition tournament_standings_model (stats_data : list (string * json))
  : result (option json) :=
  match dict_lookup "tournamentStandingsModel" stats_data with
  | None => Ok None
  | Some standings_data =>
      if truthy standings_data then
        let* n := py_len standings_data in
        if 0 <? n then
          let* first := py_index_0 standings_data in
          let* v := build
            [ ("tournament_name", py_get first "tournamentName");
              ("season", py_get first "name");
              ("overall_table", py_get_default first "overAll" (JList []));
              ("home_table", py_get_default first "homeTeam" (JList []));
              ("away_table", py_get_default first "awayTeam" (JList [])) ] in
          Ok (Some v)
        else Ok None
      else Ok None
  end.

(** [if 'recentEventModel' in stats_data: ...] *)
Definition recent_event_model (stats_data : list (string * json)) : result (option json) :=
  match dict_lookup "recentEventModel" stats_data with
  | None => Ok None
  | Some h2h_data =>
      when_truthy h2h_data
        (build
          [ ("overall_matches", py_get_default h2h_data "overall" (JList []));
            ("home_team_matches", py_get_default h2h_data "homeTeam" (JList []));
            ("away_team_matches", py_get_default h2h_data "awayTeam" (JList [])) ])
  end.

(** [if 'lastEventModel' in stats_data: ...], assigned to ["recent_form"]. *)
Definition last_event_model (stats_data : list (string * json)) : result (option json) :=
  match dict_lookup "lastEventModel" stats_data with
  | None => Ok None
  | Some form_data =>
      when_truthy form_data
        (build
          [ ("home_team", build
              [ ("id", py_get_in form_data "homeTeam" "id");
                ("name", py_get_in form_data "homeTeam" "name");
                ("recent_matches", py_get_default form_data "homeOverAll" (JList [])) ]);
            ("away_team", build
              [ ("id", py_get_in form_data "awayTeam" "id");
                ("name", py_get_in form_data "awayTeam" "name");
                ("recent_matches", py_get_default form_data "awayOverAll" (JList [])) ]) ])
  end.

(** [if 'soccerIddaaAnalysModel' in stats_data: ...] *)
Definition soccer_iddaa_analys_model (stats_data : list (string * json))
  : result (option json) :=
  match dict_lookup "soccerIddaaAnalysModel" stats_data with
  | None => Ok None
  | Some betting_data =>
      when_truthy betting_data
        (build
          [ ("general_info", py_get_default betting_data "generalInformations" (JList []));
            ("market_analysis", py_get_default betting_data "bettingAnalysis" (JList [])) ])
  end.

(** [if 'soccerRefereePageModel' in stats_data: ...] *)
Definition soccer_referee_page_model (stats_data : list (string * json))
  : result (option json) :=
  match dict_lookup "soccerRefereePageModel" stats_data with
  | None => Ok None
  | Some ref_data =>
      if truthy ref_data then
        let* referee := py_get_default ref_data "referee" (JDict []) in
        let* id := py_get_default referee "id" (JInt 0) in
        let* positive := py_gt_0 id in
        if positive then
          let* v := build
            [ ("id", py_get_in ref_data "referee" "id");
              ("age", py_get_in ref_data "referee" "age");
              ("country",
                 let* r := py_get_default ref_data "referee" (JDict []) in
                 py_get_default r "country" (JDict []));
              ("tournaments", py_get_default ref_data "refereeTournaments" (JList []));
              ("recent_matches", py_get_default ref_data "refereeMatches" (JList [])) ] in
          Ok (Some v)
        else Ok None
      else Ok None
  end.

(** A dict whose last field is a list filled by a [for] loop over the rows
    found under [rows_key]. *)
Definition rows (x : json) (rows_key : string) (row : json → result json) : result json :=
  let* l := py_get_default x rows_key (JList []) in
  let* items := py_iter l in
  let* out := map_result row items in
  Ok (JList out).

Definition league_table_model (stats_data : list (string * json)) : result (option json) :=
  let standings_data := dict_get stats_data "leagueTableModel" (JDict []) in
  when_truthy standings_data
    (build
      [ ("home_team_position", py_get standings_data "homeTeamPosition");
        ("away_team_position", py_get standings_data "awayTeamPosition");
        ("league_table", rows standings_data "leagueTable" (λ team, build
          [ ("position", py_get team "position");
            ("team_name", py_get team "teamName");
            ("played", py_get team "played");
            ("won", py_get team "won");
            ("drawn", py_get team "drawn");
            ("lost", py_get team "lost");
            ("goals_for", py_get team "goalsFor");
            ("goals_against", py_get team "goalsAgainst");
            ("goal_difference", py_get team "goalDifference");
            ("points", py_get team "points") ])) ]).

(** [f"{x.get(k1)}-{x.get(k2)}"] *)
Definition score (x : json) (k1 k2 : string) : result json :=
  let* a := py_get x k1 in
  let* b := py_get x k2 in
  Ok (JStr (py_str a +:+ "-" +:+ py_str b)).

Definition head_to_head_model (stats_data : list (string * json)) : result (option json) :=
  let h2h_data := dict_get stats_data "headToHeadModel" (JDict []) in
  when_truthy h2h_data
    (build
      [ ("total_matches", py_get h2h_data "totalMatches");
        ("home_team_wins", py_get h2h_data "homeTeamWins");
        ("away_team_wins", py_get h2h_data "awayTeamWins");
        ("draws", py_get h2h_data "draws");
        ("recent_matches", rows h2h_data "headToHeadMatches" (λ match_, build
          [ ("date", py_get match_ "matchDate");
            ("home_team", py_get match_ "homeTeamName");
            ("away_team", py_get match_ "awayTeamName");
            ("score", score match_ "homeTeamScore" "awayTeamScore");
            ("tournament", py_get match_ "tournamentName") ])) ]).

Definition form_row (match_ : json) : result json :=
  build
    [ ("date", py_get match_ "matchDate");
      ("opponent", py_get match_ "opponentName");
      ("result", py_get match_ "result");
      ("score", score match_ "homeScore" "awayScore");
      ("home_away", py_get match_ "homeAway");
      ("tournament", py_get match_ "tournamentName") ].

(** Assigned to ["recent_matches"]. *)
Definition recent_form_model (stats_data : list (string * json)) : result (option json) :=
  let recent_form := dict_get stats_data "recentFormModel" (JDict []) in
  when_truthy recent_form
    (build
      [ ("home_team_form", rows recent_form "homeTeamForm" form_row);
        ("away_team_form", rows recent_form "awayTeamForm" form_row) ]).

Definition betting_analysis_model (stats_data : list (string * json))
  : result (option json) :=
  let betting_data := dict_get stats_data "bettingAnalysisModel" (JDict []) in
  when_truthy betting_data
    (build
      [ ("opening_odds", build
          [ ("home", py_get_in betting_data "openingOdds" "home");
            ("draw", py_get_in betting_data "openingOdds" "draw");
            ("away", py_get_in betting_data "openingOdds" "away") ]);
        ("current_odds", build
          [ ("home", py_get_in betting_data "currentOdds" "home");
            ("draw", py_get_in betting_data "currentOdds" "draw");
            ("away", py_get_in betting_data "currentOdds" "away") ]);
        ("odds_movement", py_get_default betting_data "oddsMovement" (JList [])) ]).

Definition referee_information (stats_data : list (string * json))
  : result (option json) :=
  let referee_data := dict_get stats_data "refereeInformation" (JDict []) in
  when_truthy referee_data
    (build
      [ ("name", py_get referee_data "refereeName");
        ("nationality", py_get referee_data "nationality");
        ("experience", build
          [ ("total_matches", py_get referee_data "totalMatches");
            ("yellow_cards_per_match", py_get referee_data "avgYellowCards");
            ("red_cards_per_match", py_get referee_data "avgRedCards");
            ("penalties_per_match", py_get referee_data "avgPenalties") ]) ]).

Definition team_statistics_model (stats_data : list (string * json))
  : result (option json) :=
  let team_stats := dict_get stats_data "teamStatisticsModel" (JDict []) in
  when_truthy team_stats
    (build
      [ ("home_team", build
          [ ("attack_strength", py_get_in team_stats "homeTeam" "attackStrength");
            ("defense_strength", py_get_in team_stats "homeTeam" "defenseStrength");
            ("recent_form_points", py_get_in team_stats "homeTeam" "recentFormPoints");
            ("avg_goals_scored", py_get_in team_stats "homeTeam" "avgGoalsScored");
            ("avg_goals_conceded", py_get_in team_stats "homeTeam" "avgGoalsConceded");
            ("home_advantage", py_get_in team_stats "homeTeam" "homeAdvantage") ]);
        ("away_team", build
          [ ("attack_strength", py_get_in team_stats "awayTeam" "attackStrength");
            ("defense_strength", py_get_in team_stats "awayTeam" "defenseStrength");
            ("recent_form_points", py_get_in team_stats "awayTeam" "recentFormPoints");
            ("avg_goals_scored", py_get_in team_stats "awayTeam" "avgGoalsScored");
            ("avg_goals_conceded", py_get_in team_stats "awayTeam" "avgGoalsConceded");
            ("away_performance", py_get_in team_stats "awayTeam" "awayPerformance") ]) ]).

(** The blocks in source order, each with the field of [result] it assigns
    and the raw key it reads. *)
Definition statistics_blocks : list (string * string * section) :=
  [ ("event_info", "eventInformationModel", event_information);
    ("tournament_standings", "tournamentStandingsModel", tournament_standings_model);
    ("head_to_head", "recentEventModel", recent_event_model);
    ("recent_form", "lastEventModel", last_event_model);
    ("betting_analysis", "soccerIddaaAnalysModel", soccer_iddaa_analys_model);
    ("referee_info", "soccerRefereePageModel", soccer_referee_page_model);
    ("tournament_standings", "leagueTableModel", league_table_model);
    ("head_to_head", "headToHeadModel", head_to_head_model);
    ("recent_matches", "recentFormModel", recent_form_model);
    ("betting_analysis", "bettingAnalysisModel", betting_analysis_model);
    ("referee_info", "refereeInformation", referee_information);
    ("team_stats", "teamStatisticsModel", team_statistics_model) ].

(** The dict [result] as the function first builds it. *)
Definition statistics_initial (ts : string) (event_id : string) : list (string * json) :=
  [ ("success", JBool true);
    ("event_id", JStr event_id);
    ("timestamp", JStr ts);
    ("event_info", JDict []);
    ("tournament_standings", JDict []);
    ("head_to_head", JDict []);
    ("recent_matches", JDict []);
    ("betting_analysis", JDict []);
    ("referee_info", JDict []);
    ("team_stats", JDict []) ].

(** Running the blocks one after the other over [result]. *)
Fixpoint run_blocks (blocks : list (string * string * section))
    (stats_data : list (string * json)) (result_ : list (string * json))
  : result (list (string * json)) :=
  match blocks with
  | [] => Ok result_
  | (field, _, block) :: rest =>
      let* assigned := block stats_data in
      run_blocks rest stats_data
        (match assigned with
         | Some v => dict_set field v result_
         | None => result_
         end)
  end.

(** The body of the [try] block; the first statement after the literal,
    [stats_data.get(...)], raises on anything but a dict. *)
Definition event_statistics_body (ts : string) (stats_data : json) (event_id : string)
  : result json :=
  match stats_data with
  | JDict kvs =>
      let* r := run_blocks statistics_blocks kvs (statistics_initial ts event_id) in
      Ok (JDict r)
  | _ => Raise (AttributeError_get (type_of stats_data))
  end.

Definition _process_event_statistics (ts : string) (stats_data : json) (event_id : string)
  : json :=
  match event_statistics_body ts stats_data event_id with
  | Ok r => r
  | Raise e =>
      JDict [ ("success", JBool false);
              ("error", JStr ("Error processing event statistics: " +:+ exn_message e));
              ("event_id", JStr event_id);
              ("raw_data", stats_data) ]
  end.

(** ** The client: cache, request pacing and the three fetch operations

    Times are in milliseconds.  The clock advances only while the client
    sleeps or waits for the transport. *)

Record cache_entry := CacheEntry { data : json; timestamp : Z }.

Record client := Client {
  cache : gmap string cache_entry;
  last_request_time : Z;
  min_request_interval : Z;
  cache_duration : Z;
  detail_cache_duration : Z }.

Inductive request :=
| MatchesRequest
| DetailRequest (event_id : string)
| StatisticsRequest (event_id : string).

(** The two reasons the client has to call [time.sleep]: the minimum
    interval between requests, and the randomised "human-like" delay. *)
Inductive pause := RateLimit | HumanDelay.

(** What a call does to the outside world and to the client, in order. *)
Inductive effect :=
| Sleep (why : pause) (duration : Z)   (* time.sleep(duration) *)
| HttpGet (r : request)                (* requests.get(...) *)
| SetLastRequestTime (t : Z)           (* self.last_request_time = time.time() *)
| CacheStore (key : string) (t : Z).   (* self.cache[key] = {..., 'timestamp': t} *)

Record world := World { self : client; clock : Z; trace : list effect }.

(** What the transport answers: [requests.get] raises, or returns a response
    whose [json()] either raises a decoding error or yields a JSON value. *)
Inductive http_response :=
| RequestRaises (message : string)
| Response (status_code : Z) (reason : string) (body : string + json).

(** Everything a single call draws from outside the client. *)
Record environment := Environment {
  random_delay : Z;        (* the value drawn by random.uniform *)
  latency : Z;             (* how long requests.get takes *)
  answer : http_response;
  now_iso : string }.      (* datetime.now().isoformat() *)

Definition io (A : Type) : Type := world → A * world.

Definition ret {A} (a : A) : io A := λ w, (a, w).

Definition io_bind {A B} (m : io A) (f : A → io B) : io B :=
  λ w, let (a, w') := m w in f a w'.

Notation "'do' x <- m ; k" := (io_bind m (λ x, k))
  (at level 10, x name, m at level 100, k at level 200,
   format "'[v' 'do'  x  <-  m ;  '/' k ']'").

Definition time_time : io Z := λ w, (clock w, w).

Definition get_self : io client := λ w, (self w, w).

Definition emit (e : effect) (w : world) : world :=
  World (self w) (clock w) (trace w ++ [e]).

Definition time_sleep (why : pause) (duration : Z) : io unit := λ w,
  (tt, emit (Sleep why duration) (World (self w) (clock w + duration) (trace w))).

Definition requests_get (env : environment) (r : request) : io http_response := λ w,
  (answer env, emit (HttpGet r) (World (self w) (clock w + latency env) (trace w))).

Definition set_last_request_time (t : Z) : io unit := λ w,
  let c := self w in
  (tt, emit (SetLastRequestTime t)
         (World (Client (cache c) t (min_request_interval c) (cache_duration c)
                        (detail_cache_duration c))
                (clock w) (trace w))).

(** *** The cache, as the three operations read and write it *)

(** [if key in self.cache: ... if cache_age < ttl: return cache_entry['data']] *)
Definition cache_get (c : gmap string cache_entry) (key : string) (ttl now : Z)
  : option json :=
  match c !! key with
  | Some cache_entry =>
      let cache_age := now - timestamp cache_entry in
      if bool_decide (cache_age < ttl) then Some (data cache_entry) else None
  | None => None
  end.

(** [self.cache[key] = {'data': payload, 'timestamp': time.time()}] *)
Definition cache_put (c : gmap string cache_entry) (key : string) (payload : json)
    (now : Z) : gmap string cache_entry :=
  <[key := CacheEntry payload now]> c.

Definition cache_store (key : string) (payload : json) : io unit := λ w,
  let c := self w in
  (tt, emit (CacheStore key (clock w))
         (World (Client (cache_put (cache c) key payload (clock w))
                        (last_request_time c) (min_request_interval c)
                        (cache_duration c) (detail_cache_duration c))
                (clock w) (trace w))).

(** *** [_apply_rate_limit] *)

Definition _apply_rate_limit : io unit :=
  do current_time <- time_time;
  do self <- get_self;
  let time_since_last := current_time - last_request_time self in
  do _ <- (if bool_decide (time_since_last < min_request_interval self)
           then time_sleep RateLimit (min_request_interval self - time_since_last)
           else ret tt);
  do now <- time_time;
  set_last_request_time now.

(** *** [get_matches] *)

Definition limit_str (limit : option Z) : string :=
  match limit with
  | None => "None"
  | Some l => pretty l
  end.

Definition bool_str (b : bool) : string := if b then "True" else "False".

Definition matches_cache_key (limit : option Z) (live_only : bool) : string :=
  "matches_" +:+ limit_str limit +:+ "_" +:+ bool_str live_only.

Definition get_matches (env : environment) (limit : option Z) (live_only : bool)
  : io json :=
  let cache_key := matches_cache_key limit live_only in
  do self <- get_self;
  do now <- time_time;
  match cache_get (cache self) cache_key (cache_duration self) now with
  | Some cached => ret cached
  | None =>
      do _ <- _apply_rate_limit;
      let human_delay := random_delay env in
      do _ <- time_sleep HumanDelay human_delay;
      do response <- requests_get env MatchesRequest;
      match response with
      | Response status_code reason body =>
          if status_code =? 200 then
            match body with
            | inr data =>
                let processed_data :=
                  _process_matches_data (now_iso env) data limit live_only in
                do _ <- cache_store cache_key processed_data;
                ret processed_data
            | inl e =>
                ret (matches_failure (now_iso env) ("API request failed: " +:+ e))
            end
          else
            ret (matches_failure (now_iso env)
                   ("HTTP " +:+ pretty status_code +:+ ": " +:+ reason))
      | RequestRaises e =>
          ret (matches_failure (now_iso env) ("API request failed: " +:+ e))
      end
  end.

(** *** [get_event_details] and [get_event_statistics] *)

(** The pacing block both operations open with. *)
Definition enhanced_rate_limit : io unit :=
  do self <- get_self;
  let enhanced_interval := min_request_interval self * 2 in
  do current_time <- time_time;
  if bool_decide (current_time - last_request_time self < enhanced_interval)
  then time_sleep RateLimit (enhanced_interval - (current_time - last_request_time self))
  else ret tt.

Definition event_failure (event_id : string) (error : string)
    (extra : list (string * json)) : json :=
  JDict ([ ("success", JBool false);
           ("error", JStr error);
           ("event_id", JStr event_id) ] ++ extra).

(** [use_cache and cache_key in self.cache], then the freshness test. *)
Definition cached_event (use_cache : bool) (self : client) (cache_key : string)
    (now : Z) : option json :=
  if use_cache then cache_get (cache self) cache_key (detail_cache_duration self) now
  else None.

(** What both operations do with a decoded HTTP-200 body. *)
Definition event_payload (process : json → string → json) (cache_key : string)
    (event_id : string) (use_cache : bool) (data : json) : io json :=
  match data with
  | JDict kvs =>
      (* data.get('isSuccess') and 'data' in data *)
      match (if truthy (dict_get kvs "isSuccess" JNull)
             then dict_lookup "data" kvs else None) with
      | Some payload =>
          let result_ := process payload event_id in
          do _ <- (if use_cache then cache_store cache_key result_ else ret tt);
          ret result_
      | None =>
          ret (event_failure event_id "API returned unsuccessful response"
                 [("api_response", dict_get kvs "message" (JStr "Unknown error"))])
      end
  | _ =>
      (* data.get raises; the handler of the enclosing try reports it *)
      ret (event_failure event_id
             ("Network error: " +:+ exn_message (AttributeError_get (type_of data))) [])
  end.

Definition get_event_details (env : environment) (event_id : string) (use_cache : bool)
  : io json :=
  let cache_key := "event_details_" +:+ event_id in
  do self <- get_self;
  do now <- time_time;
  match cached_event use_cache self cache_key now with
  | Some cached => ret cached
  | None =>
      do _ <- enhanced_rate_limit;
      let extra_delay := random_delay env in
      do _ <- time_sleep HumanDelay extra_delay;
      do response <- requests_get env (DetailRequest event_id);
      match response with
      | Response status_code reason body =>
          do now <- time_time;
          do _ <- set_last_request_time now;
          if status_code =? 200 then
            match body with
            | inr data =>
                event_payload (_process_detailed_event (now_iso env)) cache_key
                  event_id use_cache data
            | inl e => ret (event_failure event_id ("Network error: " +:+ e) [])
            end
          else
            ret (event_failure event_id
                   ("HTTP " +:+ pretty status_code +:+ ": " +:+ reason) [])
      | RequestRaises e => ret (event_failure event_id ("Network error: " +:+ e) [])
      end
  end.

Definition get_event_statistics (env : environment) (event_id : string)
    (use_cache : bool) : io json :=
  let cache_key := "event_stats_" +:+ event_id in
  do self <- get_self;
  do now <- time_time;
  match cached_event use_cache self cache_key now with
  | Some cached => ret cached
  | None =>
      do _ <- enhanced_rate_limit;
      let extra_delay := random_delay env in
      do _ <- time_sleep HumanDelay extra_delay;
      do response <- requests_get env (StatisticsRequest event_id);
      match response with
      | Response status_code reason body =>
          do now <- time_time;
          do _ <- set_last_request_time now;
          if status_code =? 200 then
            match body with
            | inr data =>
                event_payload (_process_event_statistics (now_iso env)) cache_key
                  event_id use_cache data
            | inl e => ret (event_failure event_id ("JSON parsing failed: " +:+ e) [])
            end
          else
            ret (event_failure event_id
                   ("HTTP " +:+ pretty status_code +:+ ": " +:+ reason) [])
      | RequestRaises e => ret (event_failure event_id ("Network error: " +:+ e) [])
      end
  end.

(** [result["success"]] *)
Definition success (r : json) : option json :=
  match r with
  | JDict kvs => dict_lookup "success" kvs
  | _ => None
  end.

(** ** Reference definitions used to state the properties *)

(** The six buckets, read off the integer type code. *)
Definition category_of_code (n : Z) : string :=
  if bool_decide (n ∈ [1; 5; 10]) then "main_markets"
  else if bool_decide (n ∈ [2; 3; 8]) then "goals_markets"
  else if bool_decide (n ∈ [4; 6]) then "handicap_markets"
  else if bool_decide (n ∈ [7; 9; 14; 15]) then "player_markets"
  else if bool_decide (n ∈ [11; 12; 13]) then "events_markets"
  else "other_markets".

Definition is_dict (v : json) : bool :=
  match v with JDict _ => true | _ => false end.

(** [market.get('t') == n] on a market that is a dict. *)
Definition has_type_code (n : Z) (market : json) : bool :=
  match market with
  | JDict kvs => py_eq_int (dict_get kvs "t" JNull) n
  | _ => false
  end.

(** The odd offered by the last selection numbered [n], if there is one. *)
Fixpoint selection_odd (n : Z) (odds : list json) (found : option json) : option json :=
  match odds with
  | [] => found
  | JDict kvs :: rest =>
      selection_odd n rest
        (if py_eq_int (dict_get kvs "no" JNull) n
         then Some (dict_get kvs "odd" JNull) else found)
  | _ :: rest => selection_odd n rest found
  end.

(** The keys a main-odds mapping may hold. *)
Definition main_odds_keys : list string := ["home_win"; "draw"; "away_win"].

(** [event.get('il', False)] taken as a truth value, on an event that is a dict. *)
Definition is_live (event : json) : bool :=
  match event with
  | JDict kvs => truthy (dict_get kvs "il" (JBool false))
  | _ => false
  end.



(** A raw event and the record the pipeline builds for it, for examples. *)
Definition sample_event (i : Z) (live : bool) : json :=
  JDict [("i", JInt i); ("il", JBool live)].

Definition sample_match (i : Z) (live : bool) : json :=
  JDict [ ("event_id", JInt i); ("teams", JStr " vs "); ("home_team", JStr "");
          ("away_team", JStr ""); ("time", JStr ""); ("is_live", JBool live);
          ("status", JStr ""); ("sport_id", JStr ""); ("main_odds", JDict []) ].

Definition sample_payload (events : list json) : list (string * json) :=
  [("isSuccess", JBool true); ("data", JDict [("events", JList events)])].

(** [r] without its entry [k] (all of its entries, should it have several). *)
Fixpoint dict_remove {A} (k : string) (kvs : list (string * A)) : list (string * A) :=
  match kvs with
  | [] => []
  | (k', v) :: rest =>
      if String.eqb k k' then dict_remove k rest else (k', v) :: dict_remove k rest
  end.

(** A result without its top-level timestamp. *)
Definition without_timestamp (r : json) : json :=
  match r with
  | JDict kvs => JDict (dict_remove "timestamp" kvs)
  | _ => r
  end.

(** The raw keys whose blocks assign [field]. *)
Definition raw_keys (field : string) : list string :=
  map (λ b : string * string * section, b.1.2)
      (List.filter (λ b : string * string * section, String.eqb b.1.1 field)
                   statistics_blocks).

(** The optional sub-sections of a statistics result. *)
Definition section_fields : list string :=
  [ "event_info"; "tournament_standings"; "head_to_head"; "recent_form";
    "recent_matches"; "betting_analysis"; "referee_info"; "team_stats" ].

(** What a field holds when none of its blocks assigns it: ["recent_form"] is
    not in the initial dict, every other sub-section starts as [{}]. *)
Definition unassigned (field : string) : option json :=
  if String.eqb field "recent_form" then None else Some (JDict []).

(** [r[field]], if [r] is a dict that has it. *)
Definition result_field (field : string) (r : json) : option json :=
  match r with
  | JDict kvs => dict_lookup field kvs
  | _ => None
  end.

(** The client as [__init__] leaves it under the default configuration:
    an empty cache, no request made yet, a minimum interval of 2 s and
    time-to-live values of 300 s and 600 s. *)
Definition initial_client : client := Client ∅ 0 2000 300000 600000.

(** How long [_apply_rate_limit] sleeps in the world [w]. *)
Definition rate_limit_wait (w : world) : Z :=
  Z.max 0 (min_request_interval (self w) - (clock w - last_request_time (self w))).

(** Does some [self.last_request_time = time.time()] of the trace come
    before a randomised delay of the same trace? *)
Definition is_human_delay (e : effect) : bool :=
  match e with Sleep HumanDelay _ => true | _ => false end.

Fixpoint stamp_before_delay (tr : list effect) : bool :=
  match tr with
  | [] => false
  | SetLastRequestTime _ :: rest => existsb is_human_delay rest || stamp_before_delay rest
  | _ :: rest => stamp_before_delay rest
  end.

(** A block looks at the payload through its raw key only. *)
Definition reads_only_its_key (b : string * string * section) : Prop :=
  ∀ kvs kvs' : list (string * json),
    dict_lookup b.1.2 kvs = dict_lookup b.1.2 kvs' → b.2 kvs = b.2 kvs'.

(** A block whose raw key is absent, or holds a falsy value, assigns nothing. *)
Definition idle_when_absent (b : string * string * section) : Prop :=
  ∀ kvs : list (string * json),
    truthy (dict_get kvs b.1.2 (JDict [])) = false → b.2 kvs = Ok None.

(** Unfolding the state monad of the client. *)
Ltac run_io :=
  unfold get_matches, get_event_details, get_event_statistics, event_payload,
    cached_event, _apply_rate_limit, enhanced_rate_limit, cache_store,
    set_last_request_time, requests_get, time_sleep, emit, get_self, time_time,
    io_bind, ret;
  cbn [self clock trace cache last_request_time min_request_interval
       cache_duration detail_cache_duration fst snd].

(** ** Further reference definitions *)

(** [get_event_details] and [get_event_statistics] are the same code up to
    the cache-key prefix, the request, the normaliser and the message that
    reports an undecodable body. *)
Definition event_fetch (prefix : string) (req : string → request)
    (process : string → json → string → json) (decode_error : string)
    (env : environment) (event_id : string) (use_cache : bool) : io json :=
  let cache_key := prefix +:+ event_id in
  do self <- get_self;
  do now <- time_time;
  match cached_event use_cache self cache_key now with
  | Some cached => ret cached
  | None =>
      do _ <- enhanced_rate_limit;
      let extra_delay := random_delay env in
      do _ <- time_sleep HumanDelay extra_delay;
      do response <- requests_get env (req event_id);
      match response with
      | Response status_code reason body =>
          do now <- time_time;
          do _ <- set_last_request_time now;
          if status_code =? 200 then
            match body with
            | inr data =>
                event_payload (process (now_iso env)) cache_key event_id use_cache data
            | inl e => ret (event_failure event_id (decode_error +:+ e) [])
            end
          else
            ret (event_failure event_id
                   ("HTTP " +:+ pretty status_code +:+ ": " +:+ reason) [])
      | RequestRaises e => ret (event_failure event_id ("Network error: " +:+ e) [])
      end
  end.

(** The payload of an answer the event operations accept: HTTP 200, a body
    that decodes to an object with a truthy [isSuccess] and a [data] entry. *)
Definition accepted_payload (a : http_response) : option json :=
  match a with
  | Response status_code _ (inr (JDict kvs)) =>
      if (status_code =? 200) && truthy (dict_get kvs "isSuccess" JNull)
      then dict_lookup "data" kvs else None
  | _ => None
  end.

(** How long the enhanced pacing block sleeps in the world [w]. *)
Definition enhanced_wait (w : world) : Z :=
  Z.max 0 (min_request_interval (self w) * 2 - (clock w - last_request_time (self w))).

(** Did the transport return a response (rather than raise)? *)
Definition responded (a : http_response) : bool :=
  match a with Response _ _ _ => true | RequestRaises _ => false end.

(** The configuration part of the client. *)
Definition config (c : client) : Z * Z * Z :=
  (min_request_interval c, cache_duration c, detail_cache_duration c).

(** The body [get_matches] normalises: that of an HTTP-200 answer that
    decodes. *)
Definition decoded_200 (a : http_response) : option json :=
  match a with
  | Response status_code _ (inr body) => if status_code =? 200 then Some body else None
  | _ => None
  end.

(** A world in which nothing lies in the future: neither the time of the
    last request nor the time stamp of a cache entry. *)
Definition consistent (w : world) : Prop :=
  last_request_time (self w) ≤ clock w
  ∧ ∀ k e, cache (self w) !! k = Some e → timestamp e ≤ clock w.

(** The two event operations, told apart by a flag, with the prefix of
    their cache keys. *)
Definition event_op (statistics : bool)
  : environment → string → bool → io json :=
  if statistics then get_event_statistics else get_event_details.

Definition event_prefix (statistics : bool) : string :=
  if statistics then "event_stats_" else "event_details_".

Definition underscore : Ascii.ascii := Ascii.ascii_of_nat 95.

(** Projections of a world built by the state monad. *)
Ltac io_proj :=
  cbn [self clock trace cache last_request_time min_request_interval
       cache_duration detail_cache_duration fst snd].



(** ** The display layer ([src/sports_cli.py]) *)

(** *** [format_match_summary] *)

Definition format_match_summary (match_ : json) : result string :=
  let* is_live := py_get match_ "is_live" in
  let status := if truthy is_live then "🔴 LIVE" else "⏰ Scheduled" in
  let* teams := py_get_default match_ "teams" (JStr "Unknown vs Unknown") in
  let* time := py_get_default match_ "time" (JStr "Unknown time") in
  let* event_id := py_get_default match_ "event_id" (JStr "N/A") in
  let* odds := py_get_default match_ "main_odds" (JDict []) in
  let* odds_text :=
    (if truthy odds then
       let* home := py_get_default odds "home_win" (JStr "-") in
       let* draw := py_get_default odds "draw" (JStr "-") in
       let* away := py_get_default odds "away_win" (JStr "-") in
       Ok (" | Odds: " +:+ py_str home +:+ " - " +:+ py_str draw +:+ " - "
           +:+ py_str away)
     else Ok "") in
  Ok (status +:+ " " +:+ py_str teams +:+ " (" +:+ py_str time +:+ ") | ID: "
      +:+ py_str event_id +:+ odds_text).

(** *** [format_event_details] *)

(** Besides the exceptions of the normaliser, the formatter can run into a
    [KeyError] when it files a market under its category. *)
Inductive cli_error :=
| Raised (e : exn)
| KeyError (key : json).      (* market_categories[category] *)

(** [str(e)] *)
Definition cli_error_message (e : cli_error) : string :=
  match e with
  | Raised e => exn_message e
  | KeyError key => py_repr key
  end.

Inductive outcome (A : Type) : Type :=
| Done (a : A)
| Failed (e : cli_error).
Arguments Done {A} a.
Arguments Failed {A} e.

Definition outcome_bind {A B} (m : outcome A) (f : A → outcome B) : outcome B :=
  match m with
  | Done a => f a
  | Failed e => Failed e
  end.

Notation "'let+' x := m 'in' k" := (outcome_bind m (λ x, k))
  (at level 10, x name, m at level 100, k at level 200,
   format "'[v' 'let+'  x  :=  m  'in'  '/' k ']'").

(** An operation of the normaliser's kind, used by the formatter. *)
Definition lift {A} (m : result A) : outcome A :=
  match m with
  | Ok a => Done a
  | Raise e => Failed (Raised e)
  end.

(** [s * n] *)
Fixpoint repeat_string (s : string) (n : nat) : string :=
  match n with
  | O => ""
  | S n => s +:+ repeat_string s n
  end.

(** [s.replace(a, b)] for single characters. *)
Fixpoint replace_char (a b : Ascii.ascii) (s : string) : string :=
  match s with
  | EmptyString => EmptyString
  | String c rest => String (if Ascii.eqb c a then b else c) (replace_char a b rest)
  end.

Definition is_lower (c : Ascii.ascii) : bool :=
  let n := Ascii.nat_of_ascii c in (97 <=? n)%nat && (n <=? 122)%nat.

Definition is_upper (c : Ascii.ascii) : bool :=
  let n := Ascii.nat_of_ascii c in (65 <=? n)%nat && (n <=? 90)%nat.

(** [s.title()] on ASCII text: a letter is upper-cased when it follows a
    character that is no letter, and lower-cased when it follows a letter. *)
Fixpoint title_from (previous_is_cased : bool) (s : string) : string :=
  match s with
  | EmptyString => EmptyString
  | String c rest =>
      if is_lower c then
        String (if previous_is_cased then c
                else Ascii.ascii_of_nat (Ascii.nat_of_ascii c - 32))
               (title_from true rest)
      else if is_upper c then
        String (if previous_is_cased
                then Ascii.ascii_of_nat (Ascii.nat_of_ascii c + 32) else c)
               (title_from true rest)
      else String c (title_from false rest)
  end.

Definition py_title (s : string) : string := title_from false s.

Definition newline : string := String (Ascii.ascii_of_nat 10) EmptyString.

(** The dict [market_categories] as the formatter first builds it. *)
Definition empty_market_categories : list (string * list json) :=
  [ ("main_markets", []); ("goals_markets", []); ("handicap_markets", []);
    ("player_markets", []); ("events_markets", []); ("other_markets", []) ].

Definition category_names : list (string * string) :=
  [ ("main_markets", "🎯 Main Markets (Match Results)");
    ("goals_markets", "⚽ Goals & Scoring Markets");
    ("handicap_markets", "⚖️ Handicap Markets");
    ("player_markets", "👤 Player & Team Specific");
    ("events_markets", "📊 Game Events (Cards, Corners)");
    ("other_markets", "🔀 Other Markets") ].

(** [groups[category].append(market)] *)
Fixpoint append_to (category : string) (market : json)
    (groups : list (string * list json)) : option (list (string * list json)) :=
  match groups with
  | [] => None
  | (k, ms) :: rest =>
      if String.eqb category k then Some ((k, ms ++ [market]) :: rest)
      else rest' ← append_to category market rest; Some ((k, ms) :: rest')
  end.

(** [market_categories[category].append(market)] for any value of
    [category]. *)
Definition file_market (category market : json) (groups : list (string * list json))
  : outcome (list (string * list json)) :=
  match category with
  | JStr c =>
      match append_to c market groups with
      | Some groups' => Done groups'
      | None => Failed (KeyError category)
      end
  | JList _ | JDict _ => Failed (Raised (TypeError_unhashable (type_of category)))
  | _ => Failed (KeyError category)
  end.

(** The loop [for market in markets] that files the markets. *)
Fixpoint categorize_markets (markets : list json) (groups : list (string * list json))
  : outcome (list (string * list json)) :=
  match markets with
  | [] => Done groups
  | market :: rest =>
      let+ category :=
        lift (py_get_default market "market_category" (JStr "other_markets")) in
      let+ groups' := file_market category market groups in
      categorize_markets rest groups'
  end.

(** The line of one selection. *)
Definition selection_line (selection : json) : result string :=
  let* selection_no := py_get_default selection "selection_no" (JStr "N/A") in
  let* sel_name :=
    py_get_default selection "name" (JStr ("Selection " +:+ py_str selection_no)) in
  let* odd_value := py_get_default selection "odd" (JStr "N/A") in
  let* status := py_get_default selection "status" (JStr "") in
  let status_icon :=
    if py_eq_str status "0" then "🔴" else if py_eq_str status "1" then "🟢" else "" in
  Ok ("    • " +:+ py_str sel_name +:+ ": " +:+ py_str odd_value +:+ " " +:+ status_icon).

(** The lines of one market: its heading, its selections, an empty line. *)
Definition market_lines (market : json) : result (list string) :=
  let* market_type := py_get_default market "market_type" (JStr "Unknown") in
  let* market_desc :=
    py_get_default market "market_description" (JStr ("Market " +:+ py_str market_type)) in
  let* market_id := py_get_default market "market_id" (JStr "N/A") in
  let* selections := py_get_default market "selections" (JList []) in
  let* items := py_iter selections in
  let* lines := map_result selection_line items in
  Ok (("  📈 " +:+ py_str market_desc +:+ " (ID: " +:+ py_str market_id +:+ ")")
      :: lines ++ [""]).

(** The lines of the non-empty categories, in the order of the dict. *)
Fixpoint category_lines (groups : list (string * list json)) : result (list string) :=
  match groups with
  | [] => Ok []
  | (category, category_markets) :: rest =>
      let* here :=
        (match category_markets with
         | [] => Ok []
         | _ =>
             let category_name :=
               default (py_title (replace_char underscore (Ascii.ascii_of_nat 32) category))
                       (dict_lookup category category_names) in
             let* blocks := map_result market_lines category_markets in
             Ok ((category_name +:+ " ("
                  +:+ pretty (Z.of_nat (length category_markets)) +:+ " markets):")
                 :: repeat_string "-" 50 :: concat blocks)
         end) in
      let* there := category_lines rest in
      Ok (here ++ there)
  end.

Definition format_event_details (details : json) : outcome string :=
  let+ ok := lift (py_get details "success") in
  if negb (truthy ok) then
    let+ error := lift (py_get details "error") in
    Done ("❌ Error: " +:+ py_str error)
  else
    let+ event_info := lift (py_get_default details "event_info" (JDict [])) in
    let+ markets := lift (py_get_default details "betting_markets" (JList [])) in
    let+ name := lift (py_get_default event_info "name" (JStr "Unknown Match")) in
    let+ start_time := lift (py_get_default event_info "start_time" (JStr "Unknown")) in
    let+ home_team := lift (py_get_default event_info "home_team" (JStr "Unknown")) in
    let+ away_team := lift (py_get_default event_info "away_team" (JStr "Unknown")) in
    let+ status := lift (py_get_default event_info "status" (JStr "Unknown")) in
    let+ event_id := lift (py_get_default event_info "event_id" (JStr "Unknown")) in
    let+ markets_count := lift (py_get_default details "markets_count" (JInt 0)) in
    let header :=
      [ repeat_string "=" 60;
        "🏆 EVENT DETAILS - " +:+ py_str name;
        repeat_string "=" 60;
        "🕐 Start Time: " +:+ py_str start_time;
        "⚽ Home Team: " +:+ py_str home_team;
        "⚽ Away Team: " +:+ py_str away_team;
        "📊 Status: " +:+ py_str status;
        "🎯 Event ID: " +:+ py_str event_id;
        "📈 Total Markets: " +:+ py_str markets_count;
        "" ] in
    let+ items := lift (py_iter markets) in
    let+ market_categories := categorize_markets items empty_market_categories in
    let+ body := lift (category_lines market_categories) in
    Done (join newline (header ++ body)).

(** A market record the formatter can display: a dict filed under one of the
    six categories, whose selections are a list of dicts. *)
Definition displayable_market (m : json) : Prop :=
  ∃ kvs category selections,
    m = JDict kvs
    ∧ dict_lookup "market_category" kvs = Some (JStr category)
    ∧ category ∈ market_categories
    ∧ dict_get kvs "selections" (JList []) = JList selections
    ∧ Forall (λ s, is_dict s = true) selections.

(** The raw keys the statistics pipeline reads, in source order. *)
Definition statistics_raw_keys : list string :=
  map (λ b : string * string * section, b.1.2) statistics_blocks.



(** Whether a value can be a dict key, or be looked for in a dict. *)
Definition hashable (v : json) : bool :=
  match v with
  | JList _ | JDict _ => false
  | _ => true
  end.

(** A raw market of sub-type "855", a sub-type none of the tables lists. *)
Definition market_855 (type_code special_odd_value : json) : json :=
  JDict [("t", type_code); ("st", JStr "855"); ("sov", special_odd_value)].

(** * Properties *)

(** ** [repr] of strings *)

(** [str(["a\xa0b", "é", "it's"])]: the no-break space is escaped, the
    printable [é] is copied, and a string holding a single quote is quoted
    with double quotes. *)
Lemma py_str_list_of_strings :
  let nbsp := String (Ascii.ascii_of_nat 194) (String (Ascii.ascii_of_nat 160) "") in
  py_str (JList [JStr ("a" +:+ nbsp +:+ "b"); JStr "é"; JStr "it's"])
  = String.concat "" ["['a"; String backslash "xa0b', 'é', "; String dquote "it's";
                      String dquote "]"].
Proof. reflexivity. Qed.

(** ** Market categorisation *)

Lemma pretty_in_codes (n : Z) (codes : list Z) :
  bool_decide (pretty n ∈ pretty <$> codes) = bool_decide (n ∈ codes).
Proof. apply bool_decide_ext. apply list_elem_of_fmap_inj. apply _. Qed.

Lemma categorize_market_code (n : Z) (st : json) :
  _categorize_market (JInt n) st = category_of_code n.
Proof.
  unfold _categorize_market, category_of_code. cbn [py_str py_repr].
  change ["1"; "5"; "10"] with (pretty <$> [1; 5; 10]).
  change ["2"; "3"; "8"] with (pretty <$> [2; 3; 8]).
  change ["4"; "6"] with (pretty <$> [4; 6]).
  change ["7"; "9"; "14"; "15"] with (pretty <$> [7; 9; 14; 15]).
  change ["11"; "12"; "13"] with (pretty <$> [11; 12; 13]).
  by rewrite !pretty_in_codes.
Qed.

Lemma categorize_market_in_categories (t st : json) :
  _categorize_market t st ∈ market_categories.
Proof.
  unfold _categorize_market, market_categories.
  repeat case_bool_decide; set_solver.
Qed.

(** C9: market categorisation is total and deterministic.  Every integer
    type code falls into exactly one of the six categories: the codes 1..15
    are distributed over the first five buckets as the source lists them,
    every other integer lands in [other_markets], and the category depends
    on the type code alone. *)
Theorem categorize_market_total (n : Z) (st : json) :
  let category := _categorize_market (JInt n) st in
  category ∈ market_categories
  ∧ NoDup market_categories
  ∧ (category = "main_markets" ↔ n ∈ [1; 5; 10])
  ∧ (category = "goals_markets" ↔ n ∈ [2; 3; 8])
  ∧ (category = "handicap_markets" ↔ n ∈ [4; 6])
  ∧ (category = "player_markets" ↔ n ∈ [7; 9; 14; 15])
  ∧ (category = "events_markets" ↔ n ∈ [11; 12; 13])
  ∧ (category = "other_markets" ↔ ¬ (1 ≤ n ≤ 15))
  ∧ (∀ st', _categorize_market (JInt n) st' = category).
Proof.
  cbv zeta. split; [apply categorize_market_in_categories|].
  split; [apply (bool_decide_unpack _); by vm_compute|].
  assert (∀ st', _categorize_market (JInt n) st' = category_of_code n) as Hcode
    by (intros; apply categorize_market_code).
  rewrite Hcode. split_and!; [..|done].
  all: unfold category_of_code; repeat case_bool_decide; set_unfold.
  all: split; try (intros; discriminate); try (intros; exfalso; lia);
       try tauto; intros; lia.
Qed.

(** ** Market descriptions *)

(** Every key of the sub-type table is, prefixed by the type code 2, a key
    of the exact-match table: for type 2 the exact tier always answers
    before the sub-type tier is consulted. *)
Lemma subtype_patterns_shadowed (s d : string) (sov : json) :
  dict_lookup s subtype_patterns = Some d →
  is_Some (dict_lookup ("2." +:+ s) (market_descriptions sov)).
Proof.
  unfold subtype_patterns. cbn [dict_lookup].
  repeat match goal with
         | |- context [String.eqb s ?k] =>
             destruct (String.eqb_spec s k) as [->|_]; [intros _; by eexists|]
         end.
  discriminate.
Qed.

Lemma market_key_type_2 (market_type st : json) :
  market_type = JInt 2 ∨ market_type = JStr "2" →
  market_key market_type st = "2." +:+ py_str st.
Proof. by intros [-> | ->]. Qed.

Lemma subtype_tier_unreachable (market_type st sov : json) (d : string) :
  market_type = JInt 2 ∨ market_type = JStr "2" →
  dict_lookup (market_key market_type st) (market_descriptions sov) = None →
  py_dict_find st subtype_patterns ≠ Ok (Some d).
Proof.
  intros Ht Hexact Hfind. rewrite (market_key_type_2 _ _ Ht) in Hexact.
  destruct st; try discriminate. cbn in Hfind. injection Hfind as Hfind.
  destruct (subtype_patterns_shadowed _ _ sov Hfind) as [x Hx].
  cbn [py_str] in Hexact. congruence.
Qed.

(** Against C4 as stated: a special value that is present in the market but
    falsy.  The market [{"t": "2", "st": "855", "sov": 0}] has type code 2,
    its key "2.855" has no entry in the exact-match table and its special
    value is present, yet the description is the type-only "Goals and
    Statistics.855", not a composition of the type and the special value.
    The same holds when the type code is the number 2. *)
Lemma market_description_zero_special_value :
  py_get (market_855 (JStr "2") (JInt 0)) "sov" = Ok (JInt 0)
  ∧ dict_lookup (market_key (JStr "2") (JStr "855")) (market_descriptions (JInt 0)) = None
  ∧ _get_market_description (JStr "2") (JStr "855") (JInt 0)
    = Ok "Goals and Statistics.855"
  ∧ _get_market_description (JStr "2") (JStr "855") (JInt 0)
    ≠ Ok ("Goals & Statistics (" +:+ py_str (JInt 0) +:+ ")")
  ∧ _get_market_description (JStr "2") (JStr "855") (JInt 0)
    ≠ Ok ("Goals and Statistics (" +:+ py_str (JInt 0) +:+ ")")
  ∧ (∃ info, market_info (market_855 (JStr "2") (JInt 0)) = Ok info
             ∧ result_field "market_description" info
               = Some (JStr "Goals and Statistics.855"))
  ∧ dict_lookup (market_key (JInt 2) (JStr "855")) (market_descriptions (JInt 0)) = None
  ∧ (∃ info, market_info (market_855 (JInt 2) (JInt 0)) = Ok info
             ∧ result_field "market_description" info
               = Some (JStr "Goals and Statistics.855")).
Proof. split_and!; [done|done|done|done|done|by eexists|done|by eexists]. Qed.

(** C4, as the code has it: a market of type 2 (the code arriving as the
    number 2 or as the string "2").
    - A sub-type found in the sub-type table never gets that table's entry:
      its key has an entry in the exact-match table, and that entry is the
      description.
    - When the key has no entry in the exact-match table and the special
      value is truthy (present, and neither empty nor zero), the description
      is the composition of the type and the special value, whatever the
      sub-type.
    - When the key has no entry in the exact-match table and the special
      value is absent, empty or zero, the description is the type-only
      "Goals and Statistics.<sub-type>" (for the string "2", provided the
      sub-type can be hashed). *)
Theorem market_description_type_2_tiers (market_type st sov : json) :
  market_type = JInt 2 ∨ market_type = JStr "2" →
  (∀ d, py_dict_find st subtype_patterns = Ok (Some d) →
     ∃ d', dict_lookup (market_key market_type st) (market_descriptions sov) = Some d'
           ∧ _get_market_description market_type st sov = Ok d')
  ∧ (dict_lookup (market_key market_type st) (market_descriptions sov) = None →
     (truthy sov = true →
      _get_market_description market_type st sov =
        Ok ((if py_eq_str market_type "2"
             then "Goals & Statistics" else "Goals and Statistics")
            +:+ " (" +:+ py_str sov +:+ ")"))
     ∧ (truthy sov = false →
        market_type = JInt 2 ∨ hashable st = true →
        _get_market_description market_type st sov =
          Ok ("Goals and Statistics." +:+ py_str st))).
Proof.
  intros Ht. split.
  - intros d Hfind.
    destruct (dict_lookup (market_key market_type st) (market_descriptions sov))
      as [d'|] eqn:Hexact.
    + exists d'. split; [done|]. unfold _get_market_description. by rewrite Hexact.
    + by destruct (subtype_tier_unreachable market_type st sov d Ht Hexact).
  - intros Hexact. split.
    + intros Hsov. unfold _get_market_description. rewrite Hexact.
      destruct Ht as [-> | ->]; cbn [py_eq_str].
      * unfold main_type_description. by rewrite Hsov.
      * change (String.eqb "2" "2") with true. cbv iota. by rewrite Hsov.
    + intros Hsov Hhash. unfold _get_market_description. rewrite Hexact.
      destruct Ht as [-> | ->]; cbn [py_eq_str].
      * unfold main_type_description. by rewrite Hsov.
      * change (String.eqb "2" "2") with true. cbv iota. rewrite Hsov.
        destruct Hhash as [|Hhash]; [done|].
        destruct (py_dict_find st subtype_patterns) as [[d|]|e] eqn:Hfind.
        -- by destruct (subtype_tier_unreachable (JStr "2") st sov d
                          (or_intror eq_refl) Hexact).
        -- cbn [bind]. unfold main_type_description. by rewrite Hsov.
        -- by destruct st.
Qed.

Lemma market_description_type_2_tiers_witness :
  (* a sub-type of the sub-type table: the exact-match entry answers *)
  (py_dict_find (JStr "88") subtype_patterns = Ok (Some "1X2 Alternative")
   ∧ ∃ d', dict_lookup (market_key (JStr "2") (JStr "88"))
                       (market_descriptions (JStr "")) = Some d'
           ∧ _get_market_description (JStr "2") (JStr "88") (JStr "") = Ok d')
  (* no exact entry, a truthy special value *)
  ∧ (dict_lookup (market_key (JStr "2") (JStr "855"))
                 (market_descriptions (JStr "1.5")) = None
     ∧ truthy (JStr "1.5") = true
     ∧ _get_market_description (JStr "2") (JStr "855") (JStr "1.5")
       = Ok ("Goals & Statistics" +:+ " (" +:+ py_str (JStr "1.5") +:+ ")"))
  (* no exact entry, a special value that is zero *)
  ∧ (dict_lookup (market_key (JInt 2) (JStr "855"))
                 (market_descriptions (JInt 0)) = None
     ∧ truthy (JInt 0) = false
     ∧ _get_market_description (JInt 2) (JStr "855") (JInt 0)
       = Ok ("Goals and Statistics." +:+ py_str (JStr "855")))
  (* no exact entry, no special value, string type code *)
  ∧ (dict_lookup (market_key (JStr "2") (JStr "855"))
                 (market_descriptions (JStr "")) = None
     ∧ truthy (JStr "") = false
     ∧ hashable (JStr "855") = true
     ∧ _get_market_description (JStr "2") (JStr "855") (JStr "")
       = Ok ("Goals and Statistics." +:+ py_str (JStr "855"))).
Proof.
  assert (JStr "2" = JInt 2 ∨ JStr "2" = JStr "2") as Hs by (right; reflexivity).
  assert (JInt 2 = JInt 2 ∨ JInt 2 = JStr "2") as Hn by (left; reflexivity).
  split; [|split; [|split]].
  - split; [reflexivity|].
    exact (proj1 (market_description_type_2_tiers (JStr "2") (JStr "88") (JStr "") Hs)
             "1X2 Alternative" eq_refl).
  - refine (conj eq_refl (conj eq_refl _)).
    exact (proj1 (proj2 (market_description_type_2_tiers
                           (JStr "2") (JStr "855") (JStr "1.5") Hs) eq_refl) eq_refl).
  - refine (conj eq_refl (conj eq_refl _)).
    exact (proj2 (proj2 (market_description_type_2_tiers
                           (JInt 2) (JStr "855") (JInt 0) Hn) eq_refl)
             eq_refl (or_introl eq_refl)).
  - refine (conj eq_refl (conj eq_refl (conj eq_refl _))).
    exact (proj2 (proj2 (market_description_type_2_tiers
                           (JStr "2") (JStr "855") (JStr "") Hs) eq_refl)
             eq_refl (or_intror eq_refl)).
Defined.

(** ** Dicts *)

Lemma dict_lookup_set k k' v kvs :
  dict_lookup k' (dict_set k v kvs) = if decide (k = k') then Some v else dict_lookup k' kvs.
Proof.
  induction kvs as [|[k0 v0] kvs IH]; cbn.
  - destruct (String.eqb_spec k' k) as [->|Hne]; case_decide; congruence.
  - destruct (String.eqb_spec k k0) as [->|Hne]; cbn.
    + destruct (String.eqb_spec k' k0) as [->|Hne']; case_decide; congruence.
    + rewrite IH. destruct (String.eqb_spec k' k0) as [->|Hne']; case_decide; congruence.
Qed.

Lemma dict_set_keys k v kvs :
  (dict_set k v kvs).*1 = if decide (k ∈ kvs.*1) then kvs.*1 else kvs.*1 ++ [k].
Proof.
  induction kvs as [|[k0 v0] kvs IH]; cbn [dict_set].
  - rewrite fmap_nil. case_decide as H; [by apply elem_of_nil in H|done].
  - destruct (String.eqb_spec k k0) as [->|Hne]; rewrite !fmap_cons; cbn [fst].
    + rewrite decide_True; [done|apply elem_of_cons; by left].
    + rewrite IH. destruct (decide (k ∈ kvs.*1)) as [Hin|Hin].
      * rewrite decide_True; [done|apply elem_of_cons; by right].
      * rewrite decide_False; [done|]. rewrite elem_of_cons. tauto.
Qed.

Lemma dict_set_NoDup k v kvs : NoDup kvs.*1 → NoDup (dict_set k v kvs).*1.
Proof.
  intros H. rewrite dict_set_keys. case_decide; [done|].
  apply NoDup_app. split_and!; [done| |apply NoDup_singleton].
  intros x Hx Hk. apply list_elem_of_singleton in Hk. congruence.
Qed.

Lemma dict_set_keys_subseteq k v kvs (allowed : list string) :
  k ∈ allowed → kvs.*1 ⊆ allowed → (dict_set k v kvs).*1 ⊆ allowed.
Proof.
  intros Hk Hsub. rewrite dict_set_keys. case_decide; [done|].
  intros x [Hx|Hx]%elem_of_app; [by apply Hsub|].
  apply list_elem_of_singleton in Hx. by subst.
Qed.

(** ** Main odds *)

Lemma py_eq_int_inj (x : json) (a b : Z) :
  py_eq_int x a = true → py_eq_int x b = true → a = b.
Proof.
  destruct x as [|[]| | | |]; cbn [py_eq_int]; try discriminate;
    intros <-%Z.eqb_eq ?%Z.eqb_eq; done.
Qed.

Lemma main_odds_loop_spec (odds : list json) (acc : list (string * json)) :
  Forall (λ o, is_dict o = true) odds →
  ∃ main_odds,
    main_odds_loop odds acc = Ok main_odds
    ∧ dict_lookup "home_win" main_odds = selection_odd 1 odds (dict_lookup "home_win" acc)
    ∧ dict_lookup "draw" main_odds = selection_odd 0 odds (dict_lookup "draw" acc)
    ∧ dict_lookup "away_win" main_odds = selection_odd 2 odds (dict_lookup "away_win" acc)
    ∧ (acc.*1 ⊆ main_odds_keys → main_odds.*1 ⊆ main_odds_keys)
    ∧ (NoDup acc.*1 → NoDup main_odds.*1).
Proof.
  intros Hodds. revert acc.
  induction Hodds as [|odd odds Hodd _ IH]; intros acc.
  - exists acc. by split_and!.
  - destruct odd as [| | | | |kvs]; try discriminate. cbn [main_odds_loop selection_odd].
    unfold py_get, py_get_default. cbn [bind]. fold (dict_get kvs "no" JNull).
    fold (dict_get kvs "odd" JNull).
    set (no := dict_get kvs "no" JNull). set (v := dict_get kvs "odd" JNull).
    match goal with |- context [main_odds_loop odds ?a] => set (acc' := a) end.
    destruct (IH acc') as (main_odds & Hrun & H1 & H0 & H2 & Hsub & Hnd).
    exists main_odds. split; [done|].
    assert (acc.*1 ⊆ main_odds_keys → acc'.*1 ⊆ main_odds_keys) as Hsub'.
    { intros Hacc. subst acc'. repeat case_match; try done;
        apply dict_set_keys_subseteq; try done; unfold main_odds_keys;
        rewrite !elem_of_cons; tauto. }
    assert (NoDup acc.*1 → NoDup acc'.*1) as Hnd'.
    { intros Hacc. subst acc'. repeat case_match; try done; by apply dict_set_NoDup. }
    rewrite H1, H0, H2. split_and!; [| | |tauto|tauto]; f_equal; subst acc'.
    all: destruct (py_eq_int no 1) eqn:E1; destruct (py_eq_int no 0) eqn:E0;
         destruct (py_eq_int no 2) eqn:E2;
         try (pose proof (py_eq_int_inj _ _ _ E1 E0); lia);
         try (pose proof (py_eq_int_inj _ _ _ E1 E2); lia);
         try (pose proof (py_eq_int_inj _ _ _ E0 E2); lia);
         rewrite ?dict_lookup_set; by repeat case_decide.
Qed.

Lemma main_market_loop_skip (before rest : list json) :
  Forall (λ m, is_dict m = true ∧ has_type_code 1 m = false) before →
  main_market_loop (before ++ rest) = main_market_loop rest.
Proof.
  induction 1 as [|m before [Hd Ht] _ IH]; [done|].
  destruct m as [| | | | |kvs]; try discriminate.
  cbn [app main_market_loop]. unfold py_get, py_get_default. cbn [bind].
  cbn [has_type_code] in Ht. unfold dict_get in Ht. by rewrite Ht.
Qed.

(** C8: main-odds extraction.  The markets before the first market of type
    1 are skipped, that market's selections are mapped by selection number
    (1 to [home_win], 0 to [draw], 2 to [away_win], a later selection with
    the same number replacing an earlier one), the markets after it are
    never looked at, and the mapping has no key but those three; without a
    market of type 1 the mapping is empty. *)
Theorem extract_main_odds_first_type_1 (before after odds : list json)
    (market : list (string * json)) :
  Forall (λ m, is_dict m = true ∧ has_type_code 1 m = false) before →
  has_type_code 1 (JDict market) = true →
  dict_get market "o" (JList []) = JList odds →
  Forall (λ o, is_dict o = true) odds →
  (∃ main_odds,
     _extract_main_odds (JList (before ++ JDict market :: after)) = Ok (JDict main_odds)
     ∧ dict_lookup "home_win" main_odds = selection_odd 1 odds None
     ∧ dict_lookup "draw" main_odds = selection_odd 0 odds None
     ∧ dict_lookup "away_win" main_odds = selection_odd 2 odds None
     ∧ main_odds.*1 ⊆ main_odds_keys
     ∧ NoDup main_odds.*1)
  ∧ _extract_main_odds (JList before) = Ok (JDict [])
  ∧ _extract_main_odds
      (JList [JDict [("t", JInt 1);
                     ("o", JList [ JDict [("no", JInt 1); ("odd", JStr "1.80")];
                                   JDict [("no", JInt 0); ("odd", JStr "3.20")];
                                   JDict [("no", JInt 2); ("odd", JStr "4.50")] ])]])
    = Ok (JDict [("home_win", JStr "1.80"); ("draw", JStr "3.20");
                 ("away_win", JStr "4.50")]).
Proof.
  intros Hbefore Htype Ho Hodds. split; [|split; [|reflexivity]].
  - unfold _extract_main_odds. cbn [py_iter bind].
    rewrite main_market_loop_skip by done. cbn [main_market_loop].
    unfold py_get, py_get_default. cbn [bind].
    cbn [has_type_code] in Htype. unfold dict_get in Htype, Ho. rewrite Htype, Ho.
    cbn [py_iter bind].
    destruct (main_odds_loop_spec odds [] Hodds) as (main_odds & -> & H1 & H0 & H2 & Hsub & Hnd).
    exists main_odds. cbn [bind]. split_and!; try done.
    + apply Hsub. rewrite fmap_nil. apply list_subseteq_nil.
    + apply Hnd. rewrite fmap_nil. apply NoDup_nil_2.
  - unfold _extract_main_odds. cbn [py_iter bind].
    rewrite <- (app_nil_r before), main_market_loop_skip by done. done.
Qed.

Lemma extract_main_odds_first_type_1_witness :
  let odds := [ JDict [("no", JInt 1); ("odd", JStr "1.80")];
                JDict [("no", JInt 0); ("odd", JStr "3.20")];
                JDict [("no", JInt 1); ("odd", JStr "1.85")] ] in
  let market := [("t", JInt 1); ("o", JList odds)] in
  let before := [JDict [("t", JInt 2)]] in
  let after := [JDict [("t", JInt 1); ("o", JList [JDict [("no", JInt 2)]])]; JNull] in
  Forall (λ m, is_dict m = true ∧ has_type_code 1 m = false) before
  ∧ has_type_code 1 (JDict market) = true
  ∧ dict_get market "o" (JList []) = JList odds
  ∧ Forall (λ o, is_dict o = true) odds
  ∧ ∃ main_odds,
      _extract_main_odds (JList (before ++ JDict market :: after)) = Ok (JDict main_odds)
      ∧ dict_lookup "home_win" main_odds = Some (JStr "1.85")
      ∧ dict_lookup "draw" main_odds = Some (JStr "3.20")
      ∧ dict_lookup "away_win" main_odds = None.
Proof.
  intros odds market before after.
  assert (Forall (λ m, is_dict m = true ∧ has_type_code 1 m = false) before) as H1
    by (repeat constructor).
  assert (has_type_code 1 (JDict market) = true) as H2 by reflexivity.
  assert (dict_get market "o" (JList []) = JList odds) as H3 by reflexivity.
  assert (Forall (λ o, is_dict o = true) odds) as H4 by (repeat constructor).
  split_and!; try assumption.
  destruct (extract_main_odds_first_type_1 before after odds market H1 H2 H3 H4)
    as [(main_odds & Hrun & Hh & Hd & Ha & _) _].
  exists main_odds. split_and!; assumption.
Defined.

(** ** The matches pipeline *)







(** Ten qualifying events and a limit of three: the first three records. *)
Example process_matches_limit_3 :
  _process_matches_data "T"
    (JDict (sample_payload (map (λ i, sample_event i true) [1; 2; 3; 4; 5; 6; 7; 8; 9; 10])))
    (Some 3) true
  = matches_success "T" (map (λ i, sample_match i true) [1; 2; 3]).
Proof. reflexivity. Qed.

(** A negative limit stops the loop at the first record. *)
Example process_matches_negative_limit :
  _process_matches_data "T"
    (JDict (sample_payload (map (λ i, sample_event i true) [1; 2; 3])))
    (Some (-2)) false
  = matches_success "T" [sample_match 1 true].
Proof. reflexivity. Qed.





(** ** Dependence on the clock *)

Lemma dict_remove_set_ne (k f : string) (v : json) (kvs : list (string * json)) :
  k ≠ f →
  dict_remove k (dict_set f v kvs) = dict_set f v (dict_remove k kvs).
Proof.
  intros Hne. induction kvs as [|[k0 v0] kvs IH]; cbn [dict_set dict_remove].
  - destruct (String.eqb_spec k f); [done|]. done.
  - destruct (String.eqb_spec f k0) as [->|Hf]; cbn [dict_remove].
    + destruct (String.eqb_spec k k0); [done|]. cbn [dict_set].
      by rewrite String.eqb_refl.
    + destruct (String.eqb_spec k k0) as [->|Hk]; [done|]. cbn [dict_set].
      destruct (String.eqb_spec f k0); [done|]. by rewrite IH.
Qed.

Lemma run_blocks_without (k : string) (blocks : list (string * string * section))
    (stats_data r1 r2 : list (string * json)) :
  Forall (λ b, b.1.1 ≠ k) blocks →
  dict_remove k r1 = dict_remove k r2 →
  match run_blocks blocks stats_data r1, run_blocks blocks stats_data r2 with
  | Ok o1, Ok o2 => dict_remove k o1 = dict_remove k o2
  | Raise e1, Raise e2 => e1 = e2
  | _, _ => False
  end.
Proof.
  intros Hblocks. revert r1 r2.
  induction Hblocks as [|[[f key] block] blocks Hf _ IH]; intros r1 r2 Hr; [done|].
  cbn [run_blocks]. destruct (block stats_data) as [[v|]|e]; cbn [bind]; [| |done].
  - apply IH. cbn in Hf. rewrite !dict_remove_set_ne by done. by rewrite Hr.
  - by apply IH.
Qed.

Lemma statistics_blocks_fields :
  Forall (λ b : string * string * section, b.1.1 ≠ "timestamp") statistics_blocks.
Proof. unfold statistics_blocks. repeat constructor; discriminate. Qed.

Lemma process_matches_without_timestamp (ts1 ts2 : string) (api_data : json)
    (limit : option Z) (live_only : bool) :
  without_timestamp (_process_matches_data ts1 api_data limit live_only)
  = without_timestamp (_process_matches_data ts2 api_data limit live_only).
Proof.
  unfold _process_matches_data, process_matches_body.
  destruct (py_get api_data "isSuccess"); cbn [bind]; [|done].
  destruct api_data; try done. destruct (dict_lookup "data" kvs); [|done].
  destruct (truthy a); [|done].
  destruct (py_get_default j "events" (JList [])); cbn [bind]; [|done].
  destruct (py_iter a0); cbn [bind]; [|done].
  destruct (matches_loop a1 limit live_only []); cbn [bind]; done.
Qed.

Lemma process_detailed_event_without_timestamp (ts1 ts2 : string) (event_data : json)
    (event_id : string) :
  without_timestamp (_process_detailed_event ts1 event_data event_id)
  = without_timestamp (_process_detailed_event ts2 event_data event_id).
Proof.
  unfold _process_detailed_event, detailed_event_body.
  repeat match goal with
         | |- context [bind ?m _] => destruct m; cbn [bind]; [|done]
         end.
  done.
Qed.

Lemma process_event_statistics_without_timestamp (ts1 ts2 : string) (stats_data : json)
    (event_id : string) :
  without_timestamp (_process_event_statistics ts1 stats_data event_id)
  = without_timestamp (_process_event_statistics ts2 stats_data event_id).
Proof.
  unfold _process_event_statistics, event_statistics_body.
  destruct stats_data as [| | | | |kvs]; try done.
  pose proof (run_blocks_without "timestamp" statistics_blocks kvs
                (statistics_initial ts1 event_id) (statistics_initial ts2 event_id)
                statistics_blocks_fields eq_refl) as H.
  destruct (run_blocks statistics_blocks kvs (statistics_initial ts1 event_id));
    destruct (run_blocks statistics_blocks kvs (statistics_initial ts2 event_id));
    cbn [bind]; try done.
  - cbn [without_timestamp]. by rewrite H.
  - by subst.
Qed.

(** C2, as the code has it: each pipeline reads the clock once and copies
    the reading into the top-level [timestamp] of a result it builds; when
    the same raw input is normalised at two clock readings, the two results
    agree on everything but that field. *)
Theorem pipelines_clock_only_in_timestamp (ts1 ts2 : string) :
  (∀ api_data limit live_only,
     without_timestamp (_process_matches_data ts1 api_data limit live_only)
     = without_timestamp (_process_matches_data ts2 api_data limit live_only))
  ∧ (∀ event_data event_id,
       without_timestamp (_process_detailed_event ts1 event_data event_id)
       = without_timestamp (_process_detailed_event ts2 event_data event_id))
  ∧ (∀ stats_data event_id,
       without_timestamp (_process_event_statistics ts1 stats_data event_id)
       = without_timestamp (_process_event_statistics ts2 stats_data event_id)).
Proof.
  split_and!; intros.
  - apply process_matches_without_timestamp.
  - apply process_detailed_event_without_timestamp.
  - apply process_event_statistics_without_timestamp.
Qed.

(** Against C2 as stated: the same raw input normalised at two clock
    readings, and the outputs of all three pipelines differ. *)
Lemma pipelines_read_the_clock :
  _process_matches_data "2026-11-03T10:00:00" (JDict (sample_payload [])) None false
  ≠ _process_matches_data "2026-11-03T10:00:01" (JDict (sample_payload [])) None false
  ∧ _process_detailed_event "2026-11-03T10:00:00" (JDict []) "42"
    ≠ _process_detailed_event "2026-11-03T10:00:01" (JDict []) "42"
  ∧ _process_event_statistics "2026-11-03T10:00:00" (JDict []) "42"
    ≠ _process_event_statistics "2026-11-03T10:00:01" (JDict []) "42".
Proof. split_and!; vm_compute; intros [=]. Qed.

(** ** The statistics pipeline *)

Lemma dict_lookup_remove {A} (k k' : string) (kvs : list (string * A)) :
  dict_lookup k' (dict_remove k kvs) = if decide (k = k') then None else dict_lookup k' kvs.
Proof.
  induction kvs as [|[k0 v0] kvs IH]; cbn [dict_lookup dict_remove].
  - by case_decide.
  - destruct (String.eqb_spec k k0) as [->|Hk].
    + rewrite IH. case_decide as Hd; [done|].
      destruct (String.eqb_spec k' k0); congruence.
    + cbn [dict_lookup]. rewrite IH.
      destruct (String.eqb_spec k' k0) as [->|]; [by rewrite decide_False|done].
Qed.

Lemma statistics_blocks_read_only_their_key :
  Forall reads_only_its_key statistics_blocks.
Proof.
  unfold statistics_blocks.
  repeat constructor; intros kvs kvs' H; cbn [fst snd] in *.
  all: match goal with |- ?f _ = ?f _ => unfold f end; unfold dict_get; by rewrite H.
Qed.

Lemma statistics_blocks_idle_when_absent :
  Forall idle_when_absent statistics_blocks.
Proof.
  unfold statistics_blocks.
  repeat constructor; intros kvs H; cbn [fst snd] in *.
  all: match goal with |- ?f _ = _ => unfold f end; unfold dict_get, when_truthy in *.
  all: match goal with
       | H : context [dict_lookup ?k ?m] |- _ =>
           destruct (dict_lookup k m); cbn [default from_option id] in H |- *
       end.
  all: by rewrite ?H.
Qed.

(** A field that no block assigns keeps the value it had. *)
Lemma run_blocks_unassigned (field : string) (stats_data : list (string * json))
    (blocks : list (string * string * section)) :
  Forall (λ b, b.1.1 = field → b.2 stats_data = Ok None) blocks →
  ∀ r r', run_blocks blocks stats_data r = Ok r' →
          dict_lookup field r' = dict_lookup field r.
Proof.
  induction 1 as [|[[f key] block] blocks Hb _ IH]; intros r r' Hrun.
  - by injection Hrun as <-.
  - cbn [run_blocks] in Hrun. cbn [fst snd] in Hb.
    destruct (block stats_data) as [[v|]|e] eqn:Hblock; cbn [bind] in Hrun;
      [| |discriminate].
    + rewrite (IH _ _ Hrun), dict_lookup_set.
      case_decide as Hf; [|done]. by specialize (Hb Hf).
    + by apply IH.
Qed.

(** Deleting the raw key [k] from a payload the blocks accept: the blocks
    accept what is left, and the fields outside [touched] are as before. *)
Lemma run_blocks_delete (k : string) (touched : string → Prop)
    (stats_data : list (string * json)) (blocks : list (string * string * section)) :
  Forall reads_only_its_key blocks →
  Forall idle_when_absent blocks →
  Forall (λ b, b.1.2 = k → touched b.1.1) blocks →
  ∀ r1 r2 o1,
    run_blocks blocks stats_data r1 = Ok o1 →
    (∀ f, ¬ touched f → dict_lookup f r2 = dict_lookup f r1) →
    ∃ o2, run_blocks blocks (dict_remove k stats_data) r2 = Ok o2
          ∧ ∀ f, ¬ touched f → dict_lookup f o2 = dict_lookup f o1.
Proof.
  intros Hreads. induction Hreads as [|[[f key] block] blocks Hread _ IH];
    intros Hidle Htouched r1 r2 o1 Hrun Hr.
  - injection Hrun as <-. by exists r2.
  - apply Forall_cons in Hidle as [Hidle Hidles].
    apply Forall_cons in Htouched as [Htouch Htouched].
    unfold idle_when_absent in Hidle. unfold reads_only_its_key in Hread.
    cbn [fst snd] in Htouch, Hidle, Hread. cbn [run_blocks] in Hrun |- *.
    destruct (block stats_data) as [assigned|e] eqn:Hblock; cbn [bind] in Hrun;
      [|discriminate].
    destruct (decide (key = k)) as [->|Hkey].
    + rewrite (Hidle (dict_remove k stats_data)); cbn [bind].
      * eapply IH; [done..|]. intros f' Hf'. rewrite (Hr f' Hf').
        destruct assigned as [v|]; [|done]. rewrite dict_lookup_set.
        case_decide as Hff; [|done]. subst f'. exfalso. by apply Hf', Htouch.
      * unfold dict_get. by rewrite dict_lookup_remove, decide_True.
    + rewrite (Hread (dict_remove k stats_data) stats_data), Hblock; cbn [bind].
      * eapply IH; [done..|]. intros f' Hf'.
        destruct assigned as [v|]; [|by apply Hr].
        rewrite !dict_lookup_set. case_decide; [done|by apply Hr].
      * by rewrite dict_lookup_remove, decide_False.
Qed.

Lemma block_key_in_raw_keys (b : string * string * section) :
  b ∈ statistics_blocks → b.1.2 ∈ raw_keys b.1.1.
Proof.
  intros Hb. unfold raw_keys. apply list_elem_of_In, in_map_iff. exists b.
  split; [done|]. apply filter_In. split; [by apply list_elem_of_In|].
  apply String.eqb_refl.
Qed.

Lemma statistics_blocks_success_untouched (stats_data : list (string * json)) :
  Forall (λ b : string * string * section, b.1.1 = "success" → b.2 stats_data = Ok None)
         statistics_blocks.
Proof. unfold statistics_blocks. repeat constructor; discriminate. Qed.

(** The pipeline reports success exactly when no block raised. *)
Lemma process_event_statistics_success (ts : string) (kvs : list (string * json))
    (event_id : string) :
  success (_process_event_statistics ts (JDict kvs) event_id) = Some (JBool true) ↔
  ∃ r, run_blocks statistics_blocks kvs (statistics_initial ts event_id) = Ok r
       ∧ _process_event_statistics ts (JDict kvs) event_id = JDict r.
Proof.
  unfold _process_event_statistics, event_statistics_body.
  destruct (run_blocks statistics_blocks kvs (statistics_initial ts event_id))
    as [r|e] eqn:Hrun; cbn [bind].
  - split; [by exists r|]. intros _. cbn [success].
    by rewrite (run_blocks_unassigned "success" kvs statistics_blocks
                  (statistics_blocks_success_untouched kvs) _ _ Hrun).
  - split; [discriminate|]. by intros (r & [=] & _).
Qed.

Lemma statistics_initial_field (ts event_id field : string) :
  field ∈ section_fields →
  dict_lookup field (statistics_initial ts event_id) = unassigned field.
Proof.
  unfold section_fields. rewrite !elem_of_cons, elem_of_nil.
  intros [->|[->|[->|[->|[->|[->|[->|[->|[]]]]]]]]]; reflexivity.
Qed.

(** C3, as the code has it: on a payload the pipeline accepts, a
    sub-section whose raw keys are all absent (or empty) is left at its
    initial value, which is the empty mapping for every sub-section but
    [recent_form] and no entry at all for [recent_form]; so a sub-section
    holds data only if one of its raw keys exists and is non-empty.  And
    an absent sub-section never invalidates the others: deleting any raw key
    from an accepted payload gives an accepted payload (success stays true)
    whose other sub-sections are unchanged. *)
Theorem statistics_absent_section_left_empty (ts event_id : string)
    (kvs : list (string * json)) :
  success (_process_event_statistics ts (JDict kvs) event_id) = Some (JBool true) →
  (∀ field,
     field ∈ section_fields →
     (∀ k, k ∈ raw_keys field → truthy (dict_get kvs k (JDict [])) = false) →
     result_field field (_process_event_statistics ts (JDict kvs) event_id)
     = unassigned field)
  ∧ (∀ k,
       success (_process_event_statistics ts (JDict (dict_remove k kvs)) event_id)
       = Some (JBool true)
       ∧ ∀ field,
           k ∉ raw_keys field →
           result_field field
             (_process_event_statistics ts (JDict (dict_remove k kvs)) event_id)
           = result_field field (_process_event_statistics ts (JDict kvs) event_id)).
Proof.
  intros (r & Hrun & Hout)%process_event_statistics_success. rewrite Hout. split.
  - intros field Hfield Habsent. cbn [result_field].
    rewrite (run_blocks_unassigned field kvs statistics_blocks) with (r := statistics_initial ts event_id);
      [by apply statistics_initial_field| |done].
    apply Forall_forall. intros b Hb <-.
    eapply Forall_forall in Hb as Hidle; [|apply statistics_blocks_idle_when_absent].
    apply Hidle, Habsent. by apply block_key_in_raw_keys.
  - intros k.
    destruct (run_blocks_delete k (λ f, k ∈ raw_keys f) kvs statistics_blocks
                statistics_blocks_read_only_their_key
                statistics_blocks_idle_when_absent) with
      (r1 := statistics_initial ts event_id) (r2 := statistics_initial ts event_id)
      (o1 := r) as (o2 & Hrun2 & Hsame); [|done|done|].
    { apply Forall_forall. intros b Hb <-. by apply block_key_in_raw_keys. }
    assert (_process_event_statistics ts (JDict (dict_remove k kvs)) event_id = JDict o2)
      as Hout2.
    { unfold _process_event_statistics, event_statistics_body. by rewrite Hrun2. }
    split.
    + apply process_event_statistics_success. by exists o2.
    + intros field Hfield. rewrite Hout2. cbn [result_field]. by apply Hsame.
Qed.

Lemma statistics_absent_section_left_empty_witness :
  let kvs := [ ("headToHeadModel",
                JDict [("totalMatches", JInt 3); ("homeTeamWins", JInt 2)]) ] in
  success (_process_event_statistics "T" (JDict kvs) "42") = Some (JBool true)
  ∧ result_field "recent_matches" (_process_event_statistics "T" (JDict kvs) "42")
    = Some (JDict [])
  ∧ result_field "recent_form" (_process_event_statistics "T" (JDict kvs) "42") = None
  ∧ success (_process_event_statistics "T"
               (JDict (dict_remove "headToHeadModel" kvs)) "42")
    = Some (JBool true).
Proof.
  intros kvs.
  assert (success (_process_event_statistics "T" (JDict kvs) "42") = Some (JBool true))
    as Hs by reflexivity.
  destruct (statistics_absent_section_left_empty "T" "42" kvs Hs) as [Habsent Hdelete].
  split; [exact Hs|]. split; [|split].
  - apply (Habsent "recent_matches").
    + unfold section_fields. rewrite !elem_of_cons. tauto.
    + intros k Hk. apply list_elem_of_singleton in Hk. by subst.
  - apply (Habsent "recent_form").
    + unfold section_fields. rewrite !elem_of_cons. tauto.
    + intros k Hk. apply list_elem_of_singleton in Hk. by subst.
  - exact (proj1 (Hdelete "headToHeadModel")).
Defined.

(** Against C3 as stated: with no raw key at all, [tournament_standings]
    (like every sub-section but [recent_form]) is not omitted from the
    result; it is present, holding the empty mapping. *)
Lemma statistics_absent_section_not_omitted :
  dict_lookup "tournamentStandingsModel" ([] : list (string * json)) = None
  ∧ dict_lookup "leagueTableModel" ([] : list (string * json)) = None
  ∧ success (_process_event_statistics "T" (JDict []) "42") = Some (JBool true)
  ∧ result_field "tournament_standings" (_process_event_statistics "T" (JDict []) "42")
    = Some (JDict [])
  ∧ result_field "tournament_standings" (_process_event_statistics "T" (JDict []) "42")
    ≠ None.
Proof. split_and!; [reflexivity..|discriminate]. Qed.

(** ** The cache and the fetch operations *)

Lemma get_matches_hit (env : environment) (limit : option Z) (live_only : bool)
    (w : world) (cached : json) :
  cache_get (cache (self w)) (matches_cache_key limit live_only)
            (cache_duration (self w)) (clock w) = Some cached →
  get_matches env limit live_only w = (cached, w).
Proof. intros H. run_io. by rewrite H. Qed.

(** A call that misses the cache: what it returns, where it leaves the
    clock and [last_request_time], and what it does to the cache. *)
Lemma get_matches_miss (env : environment) (limit : option Z) (live_only : bool)
    (w : world) :
  let key := matches_cache_key limit live_only in
  let rw := get_matches env limit live_only w in
  cache_get (cache (self w)) key (cache_duration (self w)) (clock w) = None →
  last_request_time (self rw.2) = clock w + rate_limit_wait w
  ∧ clock rw.2 = clock w + rate_limit_wait w + random_delay env + latency env
  ∧ cache_duration (self rw.2) = cache_duration (self w)
  ∧ (∀ reason data,
       answer env = Response 200 reason (inr data) →
       rw.1 = _process_matches_data (now_iso env) data limit live_only
       ∧ cache (self rw.2) = cache_put (cache (self w)) key rw.1 (clock rw.2))
  ∧ ((∀ reason data, answer env ≠ Response 200 reason (inr data)) →
     success rw.1 = Some (JBool false) ∧ cache (self rw.2) = cache (self w)).
Proof.
  intros key rw Hmiss. subst rw key. run_io. rewrite Hmiss.
  unfold rate_limit_wait.
  case_bool_decide as Hwait; cbn [self clock trace cache last_request_time
    min_request_interval cache_duration detail_cache_duration fst snd].
  all: destruct (answer env) as [e|status reason body] eqn:Hanswer;
       [|destruct (Z.eqb_spec status 200) as [->|Hstatus]; [destruct body as [e|data]|]].
  all: cbn [self clock trace cache last_request_time min_request_interval
            cache_duration detail_cache_duration fst snd].
  all: split_and!; try lia; try (intros ?? [=]; subst; done);
       try (intros Hne; split; [done|done]).
  all: intros Hne; by destruct (Hne reason data).
Qed.

(** C6: the cache.  An entry just stored is read back under any positive
    time-to-live; an entry at least as old as the time-to-live reads as a
    miss; and the missed entry stays in the map: a refresh that fails
    leaves it where it was, a refresh that succeeds overwrites it.  In
    [get_matches] itself: the call right after a fetch that stored its
    result is answered from the cache, without touching the world. *)
Theorem cache_put_get_ttl (c : gmap string cache_entry) (K : string) (V : json)
    (T now : Z) :
  0 < T →
  cache_get (cache_put c K V now) K T now = Some V
  ∧ (∀ e t, c !! K = Some e → T ≤ t - timestamp e → cache_get c K T t = None)
  ∧ (∀ env limit live_only w e,
       let key := matches_cache_key limit live_only in
       let rw := get_matches env limit live_only w in
       cache (self w) !! key = Some e →
       cache_duration (self w) ≤ clock w - timestamp e →
       (∀ reason data,
          answer env = Response 200 reason (inr data) →
          cache (self rw.2) !! key = Some (CacheEntry rw.1 (clock rw.2)))
       ∧ ((∀ reason data, answer env ≠ Response 200 reason (inr data)) →
          cache (self rw.2) !! key = Some e))
  ∧ (∀ env env' limit live_only w reason body,
       let rw := get_matches env limit live_only w in
       cache_get (cache (self w)) (matches_cache_key limit live_only)
                 (cache_duration (self w)) (clock w) = None →
       answer env = Response 200 reason (inr body) →
       0 < cache_duration (self w) →
       get_matches env' limit live_only rw.2 = (rw.1, rw.2)).
Proof.
  intros HT. split_and!.
  - unfold cache_get, cache_put. rewrite lookup_insert_eq. cbn [timestamp data].
    rewrite bool_decide_eq_true_2; [done|lia].
  - intros e t He Hold. unfold cache_get. rewrite He.
    rewrite bool_decide_eq_false_2; [done|lia].
  - intros env limit live_only w e key rw He Hold.
    assert (cache_get (cache (self w)) key (cache_duration (self w)) (clock w) = None)
      as Hmiss.
    { unfold cache_get. rewrite He. rewrite bool_decide_eq_false_2; [done|lia]. }
    destruct (get_matches_miss env limit live_only w Hmiss) as (_ & _ & _ & Hok & Hfail).
    split.
    + intros reason data Hanswer. destruct (Hok reason data Hanswer) as [_ Hcache].
      subst rw key. rewrite Hcache. unfold cache_put. by rewrite lookup_insert_eq.
    + intros Hne. destruct (Hfail Hne) as [_ Hcache]. subst rw key. by rewrite Hcache.
  - intros env env' limit live_only w reason body rw Hmiss Hanswer Httl.
    destruct (get_matches_miss env limit live_only w Hmiss) as (_ & _ & Hd & Hok & _).
    destruct (Hok reason body Hanswer) as [_ Hcache]. fold rw in Hd, Hcache.
    apply get_matches_hit. rewrite Hcache, Hd. unfold cache_get, cache_put.
    rewrite lookup_insert_eq. cbn [timestamp data].
    rewrite bool_decide_eq_true_2; [done|lia].
Qed.

Lemma cache_put_get_ttl_witness :
  0 < 300000
  ∧ cache_get (cache_put ∅ "matches_10_False" (JDict [("success", JBool true)]) 1000)
              "matches_10_False" 300000 1000
    = Some (JDict [("success", JBool true)]).
Proof.
  assert (0 < 300000) as HT by lia.
  split; [exact HT|].
  exact (proj1 (cache_put_get_ttl ∅ "matches_10_False" (JDict [("success", JBool true)])
                  300000 1000 HT)).
Defined.

(** *** Failure results and the cache *)

(** Whatever [_process_matches_data] makes of an HTTP-200 body is stored. *)
Lemma get_matches_stores_the_normalised_body (env : environment) (limit : option Z)
    (live_only : bool) (w : world) (reason : string) (body : json) :
  let key := matches_cache_key limit live_only in
  let rw := get_matches env limit live_only w in
  cache_get (cache (self w)) key (cache_duration (self w)) (clock w) = None →
  answer env = Response 200 reason (inr body) →
  cache (self rw.2) !! key
  = Some (CacheEntry (_process_matches_data (now_iso env) body limit live_only)
                     (clock rw.2)).
Proof.
  intros key rw Hmiss Hanswer.
  destruct (get_matches_miss env limit live_only w Hmiss) as (_ & _ & _ & Hok & _).
  destruct (Hok reason body Hanswer) as [Hr Hcache]. subst rw key.
  rewrite Hcache, <- Hr. unfold cache_put. by rewrite lookup_insert_eq.
Qed.

(** C1 at a failing input.  The API answers HTTP 200 with a well-formed body
    whose success flag is false: [get_matches] returns a failure and stores
    it, and the next call inside the time-to-live is handed that failure
    although the API would now answer with data.  [get_event_details]
    likewise stores the failure its normaliser reports for a payload of the
    wrong shape. *)
Theorem failure_results_are_cached :
  let w := World initial_client 1000000 [] in
  let refused := Response 200 "OK" (inr (JDict [("isSuccess", JBool false)])) in
  let served := Response 200 "OK" (inr (JDict (sample_payload [sample_event 1 true]))) in
  let rw := get_matches (Environment 2000 100 refused "T") None false w in
  let rw' := get_matches (Environment 2000 100 served "T'") None false rw.2 in
  let misshaped :=
    Response 200 "OK" (inr (JDict [("isSuccess", JBool true); ("data", JList [])])) in
  let dw := get_event_details (Environment 3000 100 misshaped "T") "42" true w in
  success rw.1 = Some (JBool false)
  ∧ cache (self w) !! "matches_None_False" = None
  ∧ cache (self rw.2) !! "matches_None_False" = Some (CacheEntry rw.1 1002100)
  ∧ rw'.1 = rw.1
  ∧ trace rw'.2 = trace rw.2
  ∧ success dw.1 = Some (JBool false)
  ∧ cache (self dw.2) !! "event_details_42" = Some (CacheEntry dw.1 1003100).
Proof. vm_compute. by split_and!. Qed.

(** *** Request pacing *)

(** Every [get_matches] that goes to the network stamps the request time
    before the randomised delay. *)
Lemma get_matches_stamp_precedes_delay (env : environment) (limit : option Z)
    (live_only : bool) (w : world) :
  trace w = [] →
  cache_get (cache (self w)) (matches_cache_key limit live_only)
            (cache_duration (self w)) (clock w) = None →
  stamp_before_delay (trace (get_matches env limit live_only w).2) = true.
Proof.
  intros Htrace Hmiss. run_io. rewrite Hmiss.
  case_bool_decide; cbn [self clock trace cache last_request_time
    min_request_interval cache_duration detail_cache_duration fst snd].
  all: rewrite ?Htrace.
  all: destruct (answer env) as [e|status reason body];
       [|destruct (status =? 200); [destruct body|]]; reflexivity.
Qed.

(** [get_event_details] and [get_event_statistics] never do. *)
Lemma get_event_details_stamp_after_delay (env : environment) (event_id : string)
    (use_cache : bool) (w : world) :
  trace w = [] →
  stamp_before_delay (trace (get_event_details env event_id use_cache w).2) = false.
Proof.
  intros Htrace. run_io.
  destruct (if use_cache then _ else _); [cbn [snd]; by rewrite Htrace|].
  case_bool_decide; cbn [self clock trace cache last_request_time
    min_request_interval cache_duration detail_cache_duration fst snd].
  all: rewrite ?Htrace.
  all: destruct (answer env) as [e|status reason body];
       [|destruct (status =? 200); [destruct body as [|[]]|]]; try reflexivity.
  all: cbn [self clock trace cache last_request_time
    min_request_interval cache_duration detail_cache_duration fst snd].
  all: destruct (if truthy _ then _ else _); [destruct use_cache|]; reflexivity.
Qed.

Lemma get_event_statistics_stamp_after_delay (env : environment) (event_id : string)
    (use_cache : bool) (w : world) :
  trace w = [] →
  stamp_before_delay (trace (get_event_statistics env event_id use_cache w).2) = false.
Proof.
  intros Htrace. run_io.
  destruct (if use_cache then _ else _); [cbn [snd]; by rewrite Htrace|].
  case_bool_decide; cbn [self clock trace cache last_request_time
    min_request_interval cache_duration detail_cache_duration fst snd].
  all: rewrite ?Htrace.
  all: destruct (answer env) as [e|status reason body];
       [|destruct (status =? 200); [destruct body as [|[]]|]]; try reflexivity.
  all: cbn [self clock trace cache last_request_time
    min_request_interval cache_duration detail_cache_duration fst snd].
  all: destruct (if truthy _ then _ else _); [destruct use_cache|]; reflexivity.
Qed.

(** C5 at a failing input.  A [get_matches] call 1 s after the previous
    request: [_apply_rate_limit] sleeps the missing second and stamps
    [last_request_time] at once; the randomised delay of 2.5 s and the
    request come after the stamp, which therefore lies 2.5 s before the end
    of the delay.  In the same world [get_event_details] stamps after its
    delay and its request. *)
Theorem get_matches_stamps_before_delay :
  let w := World (Client ∅ 999000 2000 300000 600000) 1000000 [] in
  let env :=
    Environment 2500 100
      (Response 200 "OK" (inr (JDict (sample_payload [sample_event 1 true])))) "T" in
  let rw := get_matches env None false w in
  let dw := get_event_details env "42" true w in
  trace rw.2
  = [ Sleep RateLimit 1000; SetLastRequestTime 1001000; Sleep HumanDelay 2500;
      HttpGet MatchesRequest; CacheStore "matches_None_False" 1003600 ]
  ∧ last_request_time (self rw.2) = 1001000
  ∧ clock rw.2 = 1003600
  ∧ stamp_before_delay (trace rw.2) = true
  ∧ trace dw.2
    = [ Sleep RateLimit 3000; Sleep HumanDelay 2500; HttpGet (DetailRequest "42");
        SetLastRequestTime 1005600; CacheStore "event_details_42" 1005600 ]
  ∧ last_request_time (self dw.2) = 1005600
  ∧ stamp_before_delay (trace dw.2) = false.
Proof. vm_compute. by split_and!. Qed.

(** * Further properties of the client *)

Lemma get_event_details_fetch :
  get_event_details = event_fetch "event_details_" DetailRequest _process_detailed_event
                                  "Network error: ".
Proof. reflexivity. Qed.

Lemma get_event_statistics_fetch :
  get_event_statistics = event_fetch "event_stats_" StatisticsRequest
                                     _process_event_statistics "JSON parsing failed: ".
Proof. reflexivity. Qed.

Lemma event_fetch_hit prefix req process decode_error env event_id use_cache w cached :
  cached_event use_cache (self w) (prefix +:+ event_id) (clock w) = Some cached →
  event_fetch prefix req process decode_error env event_id use_cache w = (cached, w).
Proof. intros H. unfold event_fetch. run_io. unfold cached_event in H. by rewrite H. Qed.

(** A call that goes to the network. *)
Lemma event_fetch_miss prefix req process decode_error env event_id use_cache w :
  let key := prefix +:+ event_id in
  let rw := event_fetch prefix req process decode_error env event_id use_cache w in
  cached_event use_cache (self w) key (clock w) = None →
  clock rw.2 = clock w + enhanced_wait w + random_delay env + latency env
  ∧ last_request_time (self rw.2)
    = (if responded (answer env) then clock rw.2 else last_request_time (self w))
  ∧ config (self rw.2) = config (self w)
  ∧ HttpGet (req event_id) ∈ trace rw.2
  ∧ match accepted_payload (answer env) with
    | Some payload =>
        rw.1 = process (now_iso env) payload event_id
        ∧ cache (self rw.2)
          = (if use_cache then cache_put (cache (self w)) key rw.1 (clock rw.2)
             else cache (self w))
    | None =>
        success rw.1 = Some (JBool false)
        ∧ result_field "event_id" rw.1 = Some (JStr event_id)
        ∧ cache (self rw.2) = cache (self w)
    end.
Proof.
  intros key rw Hmiss. subst rw key. unfold event_fetch. run_io.
  unfold cached_event in Hmiss. rewrite Hmiss.
  unfold enhanced_wait, accepted_payload, responded, config.
  case_bool_decide as Hwait; io_proj.
  all: destruct (answer env) as [e|status reason body] eqn:Hanswer;
       [|destruct (Z.eqb_spec status 200) as [->|Hstatus];
         [destruct body as [e|[| | | | |kvs]]|destruct body as [e|[| | | | |kvs]]]].
  all: io_proj; cbn [andb].
  all: try (destruct (truthy (dict_get kvs "isSuccess" JNull));
            [destruct (dict_lookup "data" kvs)|]; try destruct use_cache).
  all: io_proj.
  all: split_and!; try lia; try done.
  all: rewrite !elem_of_app, !elem_of_cons; tauto.
Qed.

(** The body of an HTTP-200 answer that decodes, which is all [get_matches]
    asks of an answer before it normalises and stores. *)
Lemma get_matches_cases (env : environment) :
  (∃ reason body, answer env = Response 200 reason (inr body))
  ∨ (∀ reason body, answer env ≠ Response 200 reason (inr body)).
Proof.
  destruct (answer env) as [e|status reason [e|body]]; try (right; congruence).
  destruct (decide (status = 200)) as [->|]; [left; eauto|right; congruence].
Qed.

(** What any [get_matches] call, answered from the cache or not, does to
    the world. *)
Lemma get_matches_summary (env : environment) (limit : option Z) (live_only : bool)
    (w : world) :
  let key := matches_cache_key limit live_only in
  let rw := get_matches env limit live_only w in
  config (self rw.2) = config (self w)
  ∧ (cache (self rw.2) = cache (self w)
     ∨ cache (self rw.2) = cache_put (cache (self w)) key rw.1 (clock rw.2))
  ∧ ((clock rw.2 = clock w ∧ last_request_time (self rw.2) = last_request_time (self w))
     ∨ (clock rw.2 = clock w + rate_limit_wait w + random_delay env + latency env
        ∧ last_request_time (self rw.2) = clock w + rate_limit_wait w)).
Proof.
  intros key rw.
  destruct (cache_get (cache (self w)) key (cache_duration (self w)) (clock w))
    as [cached|] eqn:Hget.
  - subst rw. rewrite (get_matches_hit _ _ _ _ _ Hget). cbn [fst snd]. tauto.
  - assert (config (self rw.2) = config (self w)) as Hconfig.
    { subst rw. unfold config. run_io. fold key. rewrite Hget.
      case_bool_decide; io_proj;
        (destruct (answer env) as [e|status reason body];
         [|destruct (status =? 200); [destruct body|]]); done. }
    destruct (get_matches_miss env limit live_only w Hget) as (Hl & Hc & _ & Hok & Hfail).
    fold rw in Hl, Hc, Hok, Hfail. split; [done|]. split; [|right; by split].
    destruct (get_matches_cases env) as [(reason & body & Ha)|Hne].
    + right. by destruct (Hok reason body Ha).
    + left. by destruct (Hfail Hne).
Qed.

Lemma event_fetch_summary prefix req process decode_error env event_id use_cache w :
  let key := prefix +:+ event_id in
  let rw := event_fetch prefix req process decode_error env event_id use_cache w in
  config (self rw.2) = config (self w)
  ∧ (cache (self rw.2) = cache (self w)
     ∨ cache (self rw.2) = cache_put (cache (self w)) key rw.1 (clock rw.2))
  ∧ ((clock rw.2 = clock w ∧ last_request_time (self rw.2) = last_request_time (self w))
     ∨ (clock rw.2 = clock w + enhanced_wait w + random_delay env + latency env
        ∧ (last_request_time (self rw.2) = clock rw.2
           ∨ last_request_time (self rw.2) = last_request_time (self w)))).
Proof.
  intros key rw.
  destruct (cached_event use_cache (self w) key (clock w)) as [cached|] eqn:Hget.
  - subst rw. rewrite (event_fetch_hit _ _ _ _ _ _ _ _ _ Hget). cbn [fst snd]. tauto.
  - destruct (event_fetch_miss prefix req process decode_error env event_id use_cache
                w Hget) as (Hc & Hl & Hconfig & _ & Hcache). fold rw in Hc, Hl, Hconfig, Hcache.
    split; [done|]. split.
    + destruct (accepted_payload (answer env)).
      * destruct Hcache as [_ ->]. destruct use_cache; tauto.
      * left. tauto.
    + right. split; [done|]. rewrite Hl. destruct (responded (answer env)); tauto.
Qed.


Lemma decoded_200_None (a : http_response) :
  decoded_200 a = None ↔ ∀ reason body, a ≠ Response 200 reason (inr body).
Proof.
  destruct a as [e|status reason [e|body]]; cbn [decoded_200]; try (split; congruence).
  destruct (Z.eqb_spec status 200) as [->|Hne]; split; try congruence.
  intros H. by destruct (H reason body).
Qed.

(** X1: an answer that is no decodable HTTP-200 body (the transport raised,
    another status, an undecodable body) leaves the cache of [get_matches]
    as it was, and the call that went to the network reports a failure
    carrying the clock reading. *)
Theorem get_matches_rejected_answer_not_cached (env : environment) (limit : option Z)
    (live_only : bool) (w : world) :
  decoded_200 (answer env) = None →
  let rw := get_matches env limit live_only w in
  cache (self rw.2) = cache (self w)
  ∧ (cache_get (cache (self w)) (matches_cache_key limit live_only)
               (cache_duration (self w)) (clock w) = None →
     success rw.1 = Some (JBool false)
     ∧ result_field "timestamp" rw.1 = Some (JStr (now_iso env))).
Proof.
  intros Hrej rw.
  destruct (cache_get (cache (self w)) (matches_cache_key limit live_only)
                      (cache_duration (self w)) (clock w)) as [cached|] eqn:Hget.
  - subst rw. rewrite (get_matches_hit _ _ _ _ _ Hget). by split.
  - destruct (get_matches_miss env limit live_only w Hget) as (_ & _ & _ & _ & Hfail).
    destruct (Hfail (proj1 (decoded_200_None _) Hrej)) as [Hs Hc]. fold rw in Hs, Hc.
    split; [done|]. intros _. split; [done|].
    subst rw. run_io. rewrite Hget.
    destruct (answer env) as [e|status reason [e|body]]; cbn [decoded_200] in Hrej;
      try destruct (status =? 200); try discriminate;
      case_bool_decide; reflexivity.
Qed.

Lemma get_matches_rejected_answer_not_cached_witness :
  let env := Environment 2000 100 (Response 503 "Service Unavailable" (inl "")) "T" in
  let w := World initial_client 1000000 [] in
  decoded_200 (answer env) = None
  ∧ cache (self (get_matches env (Some 10) false w).2) = cache (self w).
Proof.
  intros env w. assert (decoded_200 (answer env) = None) as H by reflexivity.
  split; [exact H|].
  exact (proj1 (get_matches_rejected_answer_not_cached env (Some 10) false w H)).
Defined.

(** X2: [get_event_details] and [get_event_statistics] store nothing
    unless the answer is accepted (HTTP 200, a body that decodes to an
    object with a truthy [isSuccess] and a [data] entry); the call that went
    to the network then reports a failure that names the event. *)
Theorem event_rejected_answer_not_cached (env : environment) (event_id : string)
    (use_cache : bool) (w : world) :
  accepted_payload (answer env) = None →
  let dw := get_event_details env event_id use_cache w in
  let sw := get_event_statistics env event_id use_cache w in
  cache (self dw.2) = cache (self w)
  ∧ cache (self sw.2) = cache (self w)
  ∧ (cached_event use_cache (self w) ("event_details_" +:+ event_id) (clock w) = None →
     success dw.1 = Some (JBool false)
     ∧ result_field "event_id" dw.1 = Some (JStr event_id))
  ∧ (cached_event use_cache (self w) ("event_stats_" +:+ event_id) (clock w) = None →
     success sw.1 = Some (JBool false)
     ∧ result_field "event_id" sw.1 = Some (JStr event_id)).
Proof.
  intros Hrej dw sw. subst dw sw.
  rewrite get_event_details_fetch, get_event_statistics_fetch.
  assert (∀ prefix req process decode_error,
    let rw := event_fetch prefix req process decode_error env event_id use_cache w in
    cache (self rw.2) = cache (self w)
    ∧ (cached_event use_cache (self w) (prefix +:+ event_id) (clock w) = None →
       success rw.1 = Some (JBool false)
       ∧ result_field "event_id" rw.1 = Some (JStr event_id))) as H.
  { intros prefix req process decode_error rw.
    destruct (cached_event use_cache (self w) (prefix +:+ event_id) (clock w))
      as [cached|] eqn:Hget.
    - subst rw. rewrite (event_fetch_hit _ _ _ _ _ _ _ _ _ Hget). by split.
    - destruct (event_fetch_miss prefix req process decode_error env event_id
                  use_cache w Hget) as (_ & _ & _ & _ & Hcase).
      rewrite Hrej in Hcase. fold rw in Hcase. tauto. }
  split_and!; apply H.
Qed.

Lemma event_rejected_answer_not_cached_witness :
  let refused :=
    Response 200 "OK" (inr (JDict [("isSuccess", JBool false); ("message", JStr "no")])) in
  let env := Environment 3000 100 refused "T" in
  let w := World initial_client 1000000 [] in
  accepted_payload (answer env) = None
  ∧ cache (self (get_event_details env "42" true w).2) = cache (self w).
Proof.
  intros refused env w. assert (accepted_payload (answer env) = None) as H by reflexivity.
  split; [exact H|].
  exact (proj1 (event_rejected_answer_not_cached env "42" true w H)).
Defined.

(** X3: with [use_cache=False] the two event operations neither read nor
    write the cache: whatever the cache holds and whatever the API answers,
    the request is made and the cache is left as it was. *)
Theorem event_no_cache_bypasses_cache (env : environment) (event_id : string) (w : world) :
  let dw := get_event_details env event_id false w in
  let sw := get_event_statistics env event_id false w in
  cache (self dw.2) = cache (self w)
  ∧ HttpGet (DetailRequest event_id) ∈ trace dw.2
  ∧ cache (self sw.2) = cache (self w)
  ∧ HttpGet (StatisticsRequest event_id) ∈ trace sw.2.
Proof.
  intros dw sw. subst dw sw.
  rewrite get_event_details_fetch, get_event_statistics_fetch.
  assert (∀ prefix req process decode_error,
    let rw := event_fetch prefix req process decode_error env event_id false w in
    cache (self rw.2) = cache (self w) ∧ HttpGet (req event_id) ∈ trace rw.2) as H.
  { intros prefix req process decode_error rw.
    destruct (event_fetch_miss prefix req process decode_error env event_id false w
                eq_refl) as (_ & _ & _ & Htrace & Hcase). fold rw in Htrace, Hcase.
    split; [|done]. destruct (accepted_payload (answer env)); tauto. }
  split_and!; apply H.
Qed.

(** X4: a fetch touches at most the cache entry of its own key, and never
    removes an entry: every other key reads as before, and a key that was
    present stays present. *)
Theorem fetch_touches_only_its_cache_entry (env : environment) (w : world) (k : string) :
  (∀ limit live_only,
     let rw := get_matches env limit live_only w in
     (k ≠ matches_cache_key limit live_only →
      cache (self rw.2) !! k = cache (self w) !! k)
     ∧ (is_Some (cache (self w) !! k) → is_Some (cache (self rw.2) !! k)))
  ∧ (∀ event_id use_cache,
       let rw := get_event_details env event_id use_cache w in
       (k ≠ "event_details_" +:+ event_id →
        cache (self rw.2) !! k = cache (self w) !! k)
       ∧ (is_Some (cache (self w) !! k) → is_Some (cache (self rw.2) !! k)))
  ∧ (∀ event_id use_cache,
       let rw := get_event_statistics env event_id use_cache w in
       (k ≠ "event_stats_" +:+ event_id →
        cache (self rw.2) !! k = cache (self w) !! k)
       ∧ (is_Some (cache (self w) !! k) → is_Some (cache (self rw.2) !! k))).
Proof.
  assert (∀ (c c' : gmap string cache_entry) key r t,
    c' = c ∨ c' = cache_put c key r t →
    (k ≠ key → c' !! k = c !! k) ∧ (is_Some (c !! k) → is_Some (c' !! k))) as Hput.
  { intros c c' key r t [->| ->]; [done|]. unfold cache_put. split.
    - intros Hne. by rewrite lookup_insert_ne.
    - intros Hk. destruct (decide (key = k)) as [->|Hne].
      + rewrite lookup_insert_eq. by eexists.
      + by rewrite lookup_insert_ne. }
  split_and!.
  - intros limit live_only rw.
    destruct (get_matches_summary env limit live_only w) as (_ & Hc & _).
    eapply Hput, Hc.
  - intros event_id use_cache rw. subst rw. rewrite get_event_details_fetch.
    destruct (event_fetch_summary "event_details_" DetailRequest _process_detailed_event
                "Network error: " env event_id use_cache w) as (_ & Hc & _).
    eapply Hput, Hc.
  - intros event_id use_cache rw. subst rw. rewrite get_event_statistics_fetch.
    destruct (event_fetch_summary "event_stats_" StatisticsRequest
                _process_event_statistics "JSON parsing failed: " env event_id
                use_cache w) as (_ & Hc & _).
    eapply Hput, Hc.
Qed.


(** ** Cache keys *)

Lemma contains_pretty_N_go (c : Ascii.ascii) (x : N) (s : string) :
  (∀ d, pretty_N_char d ≠ c) →
  contains c s = false → contains c (pretty_N_go x s) = false.
Proof.
  intros Hc. revert s. induction (N.lt_wf_0 x) as [x _ IH]; intros s Hs.
  destruct (decide (0 < x)%N) as [Hx|Hx].
  - rewrite pretty_N_go_step by done. apply IH; [by apply N.div_lt|].
    cbn [contains]. rewrite Hs, orb_false_r. apply Ascii.eqb_neq. intros ->.
    by destruct (Hc (x `mod` 10)%N).
  - replace x with 0%N by lia. by rewrite pretty_N_go_0.
Qed.

Lemma contains_pretty_Z (c : Ascii.ascii) (z : Z) :
  (∀ d, pretty_N_char d ≠ c) → c ≠ Ascii.ascii_of_nat 45 →
  contains c (pretty z) = false.
Proof.
  intros Hc Hdash.
  assert (∀ p : positive, contains c (pretty p) = false) as Hpos.
  { intros p. unfold pretty, pretty_positive, pretty, pretty_N.
    case_decide; [done|]. by apply contains_pretty_N_go. }
  destruct z as [|p|p].
  - change (contains c "0" = false). cbn [contains]. rewrite orb_false_r.
    apply Ascii.eqb_neq. intros ->. by destruct (Hc 0%N).
  - apply Hpos.
  - change (contains c (String (Ascii.ascii_of_nat 45) (pretty p)) = false).
    cbn [contains]. rewrite Hpos, orb_false_r. by apply Ascii.eqb_neq.
Qed.

Lemma not_a_digit (c : Ascii.ascii) :
  (Ascii.nat_of_ascii c < 48 ∨ 57 < Ascii.nat_of_ascii c)%nat →
  ∀ d, pretty_N_char d ≠ c.
Proof.
  intros Hc d <-. unfold pretty_N_char in Hc.
  repeat case_match;
    change (Ascii.nat_of_ascii _) with 48%nat in Hc ||
    change (Ascii.nat_of_ascii _) with 49%nat in Hc ||
    change (Ascii.nat_of_ascii _) with 50%nat in Hc ||
    change (Ascii.nat_of_ascii _) with 51%nat in Hc ||
    change (Ascii.nat_of_ascii _) with 52%nat in Hc ||
    change (Ascii.nat_of_ascii _) with 53%nat in Hc ||
    change (Ascii.nat_of_ascii _) with 54%nat in Hc ||
    change (Ascii.nat_of_ascii _) with 55%nat in Hc ||
    change (Ascii.nat_of_ascii _) with 56%nat in Hc ||
    change (Ascii.nat_of_ascii _) with 57%nat in Hc; lia.
Qed.

(** Two strings cut at their first occurrence of [c]. *)
Lemma append_split_at (c : Ascii.ascii) (s1 s2 t1 t2 : string) :
  contains c s1 = false → contains c s2 = false →
  s1 +:+ String c t1 = s2 +:+ String c t2 → s1 = s2 ∧ t1 = t2.
Proof.
  revert s2. induction s1 as [|a s1 IH]; intros [|b s2]; cbn [contains String.append].
  - by intros _ _ [= ->].
  - intros _ [Hb _]%orb_false_elim [= <- _]. by rewrite Ascii.eqb_refl in Hb.
  - intros [Ha _]%orb_false_elim _ [= -> _]. by rewrite Ascii.eqb_refl in Ha.
  - intros [_ H1]%orb_false_elim [_ H2]%orb_false_elim [= -> Heq].
    destruct (IH s2 H1 H2 Heq) as [-> ->]. done.
Qed.

Lemma limit_str_no_underscore (limit : option Z) :
  contains underscore (limit_str limit) = false.
Proof.
  destruct limit as [l|]; [|reflexivity]. cbn [limit_str].
  apply contains_pretty_Z; [|done]. apply not_a_digit. change (Ascii.nat_of_ascii _) with 95%nat. lia.
Qed.

Lemma limit_str_inj (l1 l2 : option Z) : limit_str l1 = limit_str l2 → l1 = l2.
Proof.
  assert (∀ z : Z, contains (Ascii.ascii_of_nat 78) (pretty z) = false) as HN.
  { intros z. apply contains_pretty_Z; [|done]. apply not_a_digit. change (Ascii.nat_of_ascii _) with 78%nat. lia. }
  destruct l1 as [a|], l2 as [b|]; cbn [limit_str]; intros H.
  - f_equal. by apply (inj pretty).
  - pose proof (HN a) as Ha. rewrite H in Ha. discriminate.
  - pose proof (HN b) as Hb. rewrite <- H in Hb. discriminate.
  - done.
Qed.

(** X5: cache keys keep queries apart.  Two listing queries share a key
    only if they have the same limit and the same live flag; two events share
    a details (or statistics) key only if they are the same event; and no
    key of one operation is a key of another. *)
Theorem cache_keys_keep_queries_apart :
  (∀ l1 b1 l2 b2,
     matches_cache_key l1 b1 = matches_cache_key l2 b2 → l1 = l2 ∧ b1 = b2)
  ∧ (∀ a b : string, "event_details_" +:+ a = "event_details_" +:+ b → a = b)
  ∧ (∀ a b : string, "event_stats_" +:+ a = "event_stats_" +:+ b → a = b)
  ∧ (∀ l b (a : string), matches_cache_key l b ≠ "event_details_" +:+ a
                         ∧ matches_cache_key l b ≠ "event_stats_" +:+ a)
  ∧ (∀ a b : string, "event_details_" +:+ a ≠ "event_stats_" +:+ b).
Proof.
  split_and!.
  - intros l1 b1 l2 b2. unfold matches_cache_key. cbn [String.append].
    intros [= H].
    apply append_split_at in H as [Hl Hb]; [|apply limit_str_no_underscore..].
    split; [by apply limit_str_inj|]. by destruct b1, b2.
  - intros a b. cbn [String.append]. by intros [= H].
  - intros a b. cbn [String.append]. by intros [= H].
  - intros l b a. unfold matches_cache_key. by split.
  - by intros a b.
Qed.


(** ** Time *)

Lemma event_op_fetch (statistics : bool) :
  event_op statistics
  = event_fetch (event_prefix statistics)
      (if statistics then StatisticsRequest else DetailRequest)
      (if statistics then _process_event_statistics else _process_detailed_event)
      (if statistics then "JSON parsing failed: " else "Network error: ").
Proof. by destruct statistics. Qed.

Lemma consistent_after (w w' : world) (key : string) (r : json) :
  consistent w →
  clock w ≤ clock w' →
  last_request_time (self w') ≤ clock w' →
  cache (self w') = cache (self w)
  ∨ cache (self w') = cache_put (cache (self w)) key r (clock w') →
  consistent w'.
Proof.
  intros [Hlast Hcache] Hclock Hlast' Hc. split; [done|]. intros k e.
  destruct Hc as [-> | ->].
  - intros He. specialize (Hcache k e He). lia.
  - unfold cache_put. destruct (decide (key = k)) as [->|Hne].
    + rewrite lookup_insert_eq. intros [= <-]. cbn [timestamp]. lia.
    + rewrite lookup_insert_ne by done. intros He. specialize (Hcache k e He). lia.
Qed.

(** X6: time only moves forward.  When the drawn delay and the latency of
    the transport are not negative, each of the three fetch operations
    leaves the clock where it was or later, keeps the configuration, and
    keeps the world consistent: [last_request_time] and the time stamp of
    every cache entry never lie in the future, so that a cache age is never
    negative. *)
Theorem fetch_keeps_world_consistent (env : environment) (w : world) :
  0 ≤ random_delay env →
  0 ≤ latency env →
  consistent w →
  (∀ limit live_only,
     let rw := get_matches env limit live_only w in
     consistent rw.2 ∧ clock w ≤ clock rw.2 ∧ config (self rw.2) = config (self w))
  ∧ (∀ statistics event_id use_cache,
       let rw := event_op statistics env event_id use_cache w in
       consistent rw.2 ∧ clock w ≤ clock rw.2 ∧ config (self rw.2) = config (self w)).
Proof.
  intros Hdelay Hlatency Hw. pose proof Hw as [Hlast _]. split.
  - intros limit live_only rw.
    destruct (get_matches_summary env limit live_only w) as (Hconfig & Hc & Ht).
    fold rw in Hconfig, Hc, Ht. unfold rate_limit_wait in Ht.
    assert (clock w ≤ clock rw.2 ∧ last_request_time (self rw.2) ≤ clock rw.2)
      as [??] by lia.
    split_and!; [|done..]. by eapply consistent_after.
  - intros statistics event_id use_cache rw. subst rw. rewrite event_op_fetch.
    match goal with |- context [event_fetch ?p ?q ?f ?d] =>
      destruct (event_fetch_summary p q f d env event_id use_cache w)
        as (Hconfig & Hc & Ht);
      set (rw := event_fetch p q f d env event_id use_cache w) in *
    end.
    unfold enhanced_wait in Ht.
    assert (clock w ≤ clock rw.2 ∧ last_request_time (self rw.2) ≤ clock rw.2)
      as [??] by lia.
    split_and!; [|done..]. by eapply consistent_after.
Qed.

Lemma fetch_keeps_world_consistent_witness :
  let env := Environment 2500 100 (Response 200 "OK" (inr (JDict []))) "T" in
  let w := World initial_client 1000000 [] in
  0 ≤ random_delay env
  ∧ 0 ≤ latency env
  ∧ consistent w
  ∧ consistent (get_matches env None false w).2.
Proof.
  intros env w.
  assert (0 ≤ random_delay env) as H1 by (cbn; lia).
  assert (0 ≤ latency env) as H2 by (cbn; lia).
  assert (consistent w) as H3.
  { split; [cbn; lia|]. intros k e. cbn. by rewrite lookup_empty. }
  split_and!; [done..|].
  exact (proj1 (proj1 (fetch_keeps_world_consistent env w H1 H2 H3) None false)).
Defined.

(** X7: the pacing of [get_matches].  A call that goes to the network
    sleeps for what is missing of the minimum interval since the previous
    request time, if anything, and moves [last_request_time] to the later of
    the current time and the previous request time plus the minimum interval:
    two such stamps are never closer than the minimum interval.  The
    randomised delay and the request follow, the request leaving
    [random_delay] after the stamp. *)
Theorem get_matches_pacing (env : environment) (limit : option Z) (live_only : bool)
    (w : world) :
  cache_get (cache (self w)) (matches_cache_key limit live_only)
            (cache_duration (self w)) (clock w) = None →
  let rw := get_matches env limit live_only w in
  let elapsed := clock w - last_request_time (self w) in
  let stamp := Z.max (clock w) (last_request_time (self w) + min_request_interval (self w)) in
  last_request_time (self rw.2) = stamp
  ∧ clock rw.2 - latency env = stamp + random_delay env
  ∧ ∃ stored,
      trace rw.2
      = trace w
        ++ (if bool_decide (elapsed < min_request_interval (self w))
            then [Sleep RateLimit (min_request_interval (self w) - elapsed)] else [])
        ++ [SetLastRequestTime stamp; Sleep HumanDelay (random_delay env);
            HttpGet MatchesRequest]
        ++ stored
      ∧ (stored = [] ∨ stored = [CacheStore (matches_cache_key limit live_only) (clock rw.2)]).
Proof.
  intros Hmiss rw elapsed stamp. subst rw elapsed stamp. run_io. rewrite Hmiss.
  case_bool_decide as Hwait; io_proj.
  all: destruct (answer env) as [e|status reason body];
       [|destruct (status =? 200); [destruct body as [e|body]|]]; io_proj.
  all: split_and!; try lia.
  all: try (exists []; split; [|by left];
            rewrite <- ?app_assoc; cbn [app]; repeat f_equal; lia).
  all: eexists [_]; split; [|by right];
       rewrite <- ?app_assoc; cbn [app]; repeat f_equal; lia.
Qed.

Lemma get_matches_pacing_witness :
  let env := Environment 2500 100 (Response 500 "Internal Server Error" (inl "")) "T" in
  let w := World (Client ∅ 999000 2000 300000 600000) 1000000 [] in
  cache_get (cache (self w)) (matches_cache_key (Some 10) true)
            (cache_duration (self w)) (clock w) = None
  ∧ last_request_time (self (get_matches env (Some 10) true w).2) = 1001000.
Proof.
  intros env w.
  assert (cache_get (cache (self w)) (matches_cache_key (Some 10) true)
            (cache_duration (self w)) (clock w) = None) as H by reflexivity.
  split; [exact H|].
  exact (proj1 (get_matches_pacing env (Some 10) true w H)).
Defined.

(** X8: the pacing of the event operations.  A call that goes to the
    network sends its request no earlier than twice the minimum interval
    after the previous request time, plus the drawn delay; when the
    transport returns a response, [last_request_time] becomes the time the
    response arrived (it is left alone when the transport raises).  Hence,
    of two event calls in a row that both go to the network, the second
    sends its request at least twice the minimum interval plus its delay
    after the response to the first arrived. *)
Theorem event_requests_pacing (first second : bool) (env1 env2 : environment)
    (id1 id2 : string) (use_cache1 use_cache2 : bool) (w : world) :
  let rw1 := event_op first env1 id1 use_cache1 w in
  let rw2 := event_op second env2 id2 use_cache2 rw1.2 in
  cached_event use_cache1 (self w) (event_prefix first +:+ id1) (clock w) = None →
  cached_event use_cache2 (self rw1.2) (event_prefix second +:+ id2) (clock rw1.2)
  = None →
  clock rw1.2 - latency env1
  = Z.max (clock w) (last_request_time (self w) + min_request_interval (self w) * 2)
    + random_delay env1
  ∧ last_request_time (self rw1.2)
    = (if responded (answer env1) then clock rw1.2 else last_request_time (self w))
  ∧ (responded (answer env1) = true →
     clock rw1.2 + min_request_interval (self w) * 2 + random_delay env2
     ≤ clock rw2.2 - latency env2).
Proof.
  intros rw1 rw2 Hmiss1 Hmiss2. subst rw2 rw1. revert Hmiss2.
  rewrite !event_op_fetch.
  match goal with |- context [event_fetch ?p ?q ?f ?d env1] =>
    destruct (event_fetch_miss p q f d env1 id1 use_cache1 w Hmiss1)
      as (Hc1 & Hl1 & Hconfig1 & _);
    set (rw1 := event_fetch p q f d env1 id1 use_cache1 w) in *
  end.
  intros Hmiss2.
  match goal with |- context [event_fetch ?p ?q ?f ?d env2] =>
    destruct (event_fetch_miss p q f d env2 id2 use_cache2 rw1.2 Hmiss2)
      as (Hc2 & _);
    set (rw2 := event_fetch p q f d env2 id2 use_cache2 rw1.2) in *
  end.
  unfold enhanced_wait in Hc1, Hc2. unfold config in Hconfig1.
  injection Hconfig1 as Hmin _ _.
  split_and!; [lia|done|]. intros Hresp. rewrite Hresp in Hl1. lia.
Qed.

Lemma event_requests_pacing_witness :
  let served := Response 200 "OK" (inr (JDict [("isSuccess", JBool true); ("data", JDict [])])) in
  let env := Environment 3000 100 served "T" in
  let w := World initial_client 1000000 [] in
  let rw1 := event_op false env "42" true w in
  let rw2 := event_op true env "42" true rw1.2 in
  cached_event true (self w) (event_prefix false +:+ "42") (clock w) = None
  ∧ cached_event true (self rw1.2) (event_prefix true +:+ "42") (clock rw1.2) = None
  ∧ responded (answer env) = true
  ∧ clock rw1.2 + min_request_interval (self w) * 2 + random_delay env
    ≤ clock rw2.2 - latency env.
Proof.
  intros served env w rw1 rw2.
  assert (cached_event true (self w) (event_prefix false +:+ "42") (clock w) = None)
    as H1 by reflexivity.
  assert (cached_event true (self rw1.2) (event_prefix true +:+ "42") (clock rw1.2)
          = None) as H2 by reflexivity.
  split_and!; [exact H1|exact H2|reflexivity|].
  exact (proj2 (proj2 (event_requests_pacing false true env env "42" "42" true true w
                         H1 H2)) eq_refl).
Defined.

(** X9: an event result just stored is read back.  After a call with
    [use_cache=True] that went to the network and got an accepted answer,
    the next call for the same event, made at once under a positive
    time-to-live, returns the same result and leaves the world untouched:
    no sleep, no request. *)
Theorem event_result_read_back (statistics : bool) (env env' : environment)
    (event_id : string) (w : world) (payload : json) :
  cached_event true (self w) (event_prefix statistics +:+ event_id) (clock w) = None →
  accepted_payload (answer env) = Some payload →
  0 < detail_cache_duration (self w) →
  let rw := event_op statistics env event_id true w in
  event_op statistics env' event_id true rw.2 = (rw.1, rw.2).
Proof.
  intros Hmiss Hacc Httl rw. subst rw. rewrite !event_op_fetch.
  match goal with |- context [event_fetch ?p ?q ?f ?d env] =>
    destruct (event_fetch_miss p q f d env event_id true w Hmiss)
      as (_ & _ & Hconfig & _ & Hcase);
    set (rw := event_fetch p q f d env event_id true w) in *
  end.
  rewrite Hacc in Hcase. destruct Hcase as [_ Hcache].
  apply event_fetch_hit. unfold cached_event, cache_get. rewrite Hcache.
  unfold cache_put. rewrite lookup_insert_eq. cbn [timestamp data].
  injection Hconfig as _ _ ->.
  rewrite bool_decide_eq_true_2; [done|lia].
Qed.

Lemma event_result_read_back_witness :
  let served := Response 200 "OK" (inr (JDict [("isSuccess", JBool true); ("data", JDict [])])) in
  let env := Environment 3000 100 served "T" in
  let env' := Environment 2000 50 (RequestRaises "down") "T'" in
  let w := World initial_client 1000000 [] in
  let rw := event_op true env "42" true w in
  cached_event true (self w) (event_prefix true +:+ "42") (clock w) = None
  ∧ accepted_payload (answer env) = Some (JDict [])
  ∧ 0 < detail_cache_duration (self w)
  ∧ event_op true env' "42" true rw.2 = (rw.1, rw.2).
Proof.
  intros served env env' w rw.
  assert (cached_event true (self w) (event_prefix true +:+ "42") (clock w) = None)
    as H1 by reflexivity.
  assert (accepted_payload (answer env) = Some (JDict [])) as H2 by reflexivity.
  assert (0 < detail_cache_duration (self w)) as H3 by (cbn; lia).
  split_and!; [exact H1|exact H2|exact H3|].
  exact (event_result_read_back true env env' "42" w (JDict []) H1 H2 H3).
Defined.


(** * Further properties of the normaliser *)

(** ** Matches, whatever the payload *)

Lemma main_odds_loop_keys (odds : list json) (acc main_odds : list (string * json)) :
  main_odds_loop odds acc = Ok main_odds →
  acc.*1 ⊆ main_odds_keys → NoDup acc.*1 →
  main_odds.*1 ⊆ main_odds_keys ∧ NoDup main_odds.*1.
Proof.
  revert acc. induction odds as [|odd odds IH]; intros acc; cbn [main_odds_loop].
  - by intros [= <-].
  - destruct (py_get odd "no") as [no|]; cbn [bind]; [|done].
    destruct (py_get odd "odd") as [v|]; cbn [bind]; [|done].
    intros Hrun Hsub Hnd. eapply IH; [exact Hrun|..].
    + repeat case_match; try done; apply dict_set_keys_subseteq; try done;
        unfold main_odds_keys; rewrite !elem_of_cons; tauto.
    + repeat case_match; try done; by apply dict_set_NoDup.
Qed.

Lemma extract_main_odds_keys (markets r : json) :
  _extract_main_odds markets = Ok r →
  ∃ main_odds, r = JDict main_odds
               ∧ main_odds.*1 ⊆ main_odds_keys ∧ NoDup main_odds.*1.
Proof.
  unfold _extract_main_odds.
  destruct (py_iter markets) as [ms|]; cbn [bind]; [|done].
  assert (∀ d, main_market_loop ms = Ok d →
               d.*1 ⊆ main_odds_keys ∧ NoDup d.*1) as Hloop.
  { induction ms as [|m ms IH]; cbn [main_market_loop]; intros d.
    - intros [= <-]. split; [apply list_subseteq_nil|apply NoDup_nil_2].
    - destruct (py_get m "t") as [t|]; cbn [bind]; [|done].
      destruct (py_eq_int t 1); [|apply IH].
      destruct (py_get_default m "o" (JList [])) as [o|]; cbn [bind]; [|done].
      destruct (py_iter o) as [odds|]; cbn [bind]; [|done].
      intros Hrun. eapply main_odds_loop_keys; [exact Hrun|..].
      + apply list_subseteq_nil.
      + apply NoDup_nil_2. }
  destruct (main_market_loop ms) as [d|]; cbn [bind]; [|done].
  intros [= <-]. exists d. split; [done|]. by apply Hloop.
Qed.

(** What the pipeline guarantees of a record it lets through. *)
Lemma match_data_record (live_only : bool) (event m : json) :
  skipped live_only event = Ok false →
  match_data event = Ok m →
  (live_only = true →
   ∃ il, result_field "is_live" m = Some il ∧ truthy il = true)
  ∧ ∃ main_odds, result_field "main_odds" m = Some (JDict main_odds)
                 ∧ main_odds.*1 ⊆ main_odds_keys.
Proof.
  destruct event as [| | | | |kvs]; unfold match_data, skipped, py_get, py_get_default;
    cbn [bind]; try (destruct live_only; discriminate).
  intros Hskip.
  destruct (_extract_main_odds (default (JList []) (dict_lookup "m" kvs)))
    as [odds|] eqn:Hodds; cbn [bind]; [|done].
  intros [= <-]. apply extract_main_odds_keys in Hodds as (d & -> & Hsub & _).
  split.
  - intros ->. cbn [bind] in Hskip. injection Hskip as Hskip.
    eexists. split; [reflexivity|]. by apply negb_false_iff.
  - exists d. by split.
Qed.

Lemma matches_loop_records (P : json → Prop) (limit : option Z) (live_only : bool)
    (events : list json) :
  (∀ event m, skipped live_only event = Ok false → match_data event = Ok m → P m) →
  ∀ acc ms, Forall P acc →
            matches_loop events limit live_only acc = Ok ms → Forall P ms.
Proof.
  intros HP. induction events as [|event events IH]; intros acc ms Hacc;
    cbn [matches_loop].
  - by intros [= <-].
  - destruct (skipped live_only event) as [[]|] eqn:Hskip; cbn [bind];
      [by apply IH| |done].
    destruct (match_data event) as [m|] eqn:Hm; cbn [bind]; [|done].
    assert (Forall P (acc ++ [m])) as Hacc'.
    { apply Forall_app. split; [done|]. apply Forall_singleton. by eapply HP. }
    destruct (limit_reached limit (acc ++ [m])); [by intros [= <-]|by apply IH].
Qed.

Lemma matches_loop_length (l : Z) (live_only : bool) (events : list json) :
  0 < l →
  ∀ acc ms, Z.of_nat (length acc) < l →
            matches_loop events (Some l) live_only acc = Ok ms →
            Z.of_nat (length ms) ≤ l.
Proof.
  intros Hl. induction events as [|event events IH]; intros acc ms Hacc;
    cbn [matches_loop].
  - intros [= <-]. lia.
  - destruct (skipped live_only event) as [[]|]; cbn [bind]; [by apply IH| |done].
    destruct (match_data event) as [m|]; cbn [bind]; [|done].
    unfold limit_reached. rewrite length_app. cbn [length].
    destruct (Z.eqb_spec l 0); [lia|]. cbn [negb andb].
    destruct (Z.leb_spec l (Z.of_nat (length acc + 1))).
    + intros [= <-]. rewrite length_app. cbn [length]. lia.
    + apply IH. rewrite length_app. cbn [length]. lia.
Qed.

(** X10: what a successful listing holds, whatever the payload (events or
    markets of the wrong shape included, as long as the loop got past them).
    The result carries the number of its records; with [live_only] every
    record is live; under a positive limit there are at most [limit]
    records; and the main odds of a record have no key but [home_win],
    [draw] and [away_win]. *)
Theorem process_matches_success_records (ts : string) (api_data : json)
    (limit : option Z) (live_only : bool) :
  success (_process_matches_data ts api_data limit live_only) = Some (JBool true) →
  ∃ ms,
    _process_matches_data ts api_data limit live_only = matches_success ts ms
    ∧ (live_only = true →
       Forall (λ m, ∃ il, result_field "is_live" m = Some il ∧ truthy il = true) ms)
    ∧ (∀ l, limit = Some l → 0 < l → Z.of_nat (length ms) ≤ l)
    ∧ Forall (λ m, ∃ main_odds, result_field "main_odds" m = Some (JDict main_odds)
                                ∧ main_odds.*1 ⊆ main_odds_keys) ms.
Proof.
  unfold _process_matches_data, process_matches_body.
  destruct (py_get api_data "isSuccess") as [is_success|]; cbn [bind]; [|done].
  destruct api_data as [| | | | |kvs]; try done.
  destruct (dict_lookup "data" kvs) as [payload|]; [|done].
  destruct (truthy is_success); [|done].
  destruct (py_get_default payload "events" (JList [])) as [e|]; cbn [bind]; [|done].
  destruct (py_iter e) as [events|]; cbn [bind]; [|done].
  destruct (matches_loop events limit live_only []) as [ms|] eqn:Hloop; cbn [bind];
    [|done].
  intros _. exists ms. split_and!; [done|..].
  - intros ->. eapply matches_loop_records; [|apply Forall_nil_2|exact Hloop].
    intros event m Hs Hm. by apply (match_data_record true event m Hs Hm).
  - intros l -> Hl. eapply (matches_loop_length l live_only events Hl []); [|done].
    cbn [length]. lia.
  - eapply matches_loop_records; [|apply Forall_nil_2|exact Hloop].
    intros event m Hs Hm. by apply (match_data_record live_only event m Hs Hm).
Qed.

Lemma process_matches_success_records_witness :
  let payload :=
    JDict (sample_payload [sample_event 1 true; sample_event 2 false; JNull]) in
  success (_process_matches_data "T" payload (Some 1) true) = Some (JBool true)
  ∧ ∃ ms, _process_matches_data "T" payload (Some 1) true = matches_success "T" ms
          ∧ Z.of_nat (length ms) ≤ 1.
Proof.
  intros payload.
  assert (success (_process_matches_data "T" payload (Some 1) true) = Some (JBool true))
    as H by reflexivity.
  split; [exact H|].
  destruct (process_matches_success_records "T" payload (Some 1) true H)
    as (ms & Hr & _ & Hlen & _).
  exists ms. split; [exact Hr|]. apply (Hlen 1 eq_refl). lia.
Defined.


(** ** Event details and their display *)

Lemma map_result_Forall {A B} (f : A → result B) (P : B → Prop) (l : list A)
    (l' : list B) :
  (∀ x y, f x = Ok y → P y) →
  map_result f l = Ok l' → Forall P l' ∧ length l' = length l.
Proof.
  intros Hf. revert l'. induction l as [|x l IH]; intros l'; cbn [map_result].
  - by intros [= <-].
  - destruct (f x) as [y|] eqn:Hy; cbn [bind]; [|done].
    destruct (map_result f l) as [ys|]; cbn [bind]; [|done].
    intros [= <-]. destruct (IH ys eq_refl) as [HP Hlen].
    split; [constructor; eauto|cbn [length]; lia].
Qed.

Lemma map_result_is_Ok {A B} (f : A → result B) (l : list A) :
  Forall (λ x, ∃ y, f x = Ok y) l → ∃ l', map_result f l = Ok l'.
Proof.
  induction 1 as [|x l [y Hy] _ [ys Hys]]; cbn [map_result]; [by eexists|].
  rewrite Hy, Hys. cbn [bind]. by eexists.
Qed.

Lemma build_is_dict (fields : list (string * result json)) (r : json) :
  build fields = Ok r → is_dict r = true.
Proof.
  unfold build. destruct (build_fields fields); cbn [bind]; [|done]. by intros [= <-].
Qed.

Lemma py_len_iter (x : json) (n : Z) (l : list json) :
  py_len x = Ok n → py_iter x = Ok l → n = Z.of_nat (length l).
Proof.
  destruct x as [| | |s|xs|kvs]; cbn [py_len py_iter]; try done.
  - intros [= <-] [= <-]. f_equal. induction s as [|c s IH]; cbn; congruence.
  - by intros [= <-] [= <-].
  - intros [= <-] [= <-]. by rewrite length_map.
Qed.

Lemma market_info_displayable (market info : json) :
  market_info market = Ok info → displayable_market info.
Proof.
  destruct market as [| | | | |kvs]; unfold market_info, py_get, py_get_default;
    cbn [bind]; try done.
  destruct (_get_market_description _ _ _) as [description|]; cbn [bind]; [|done].
  destruct (py_iter _) as [odds|]; cbn [bind]; [|done].
  destruct (map_result selection_info odds) as [selections|] eqn:Hsel; cbn [bind];
    [|done].
  intros [= <-]. eexists _, _, selections. split_and!; [reflexivity..| |reflexivity|].
  - apply categorize_market_in_categories.
  - eapply (map_result_Forall selection_info); [|exact Hsel].
    intros odd s. apply build_is_dict.
Qed.

(** The shape of what the body of [_process_detailed_event] returns. *)
Lemma detailed_event_body_shape (ts : string) (event_data : json) (event_id : string)
    (r : json) :
  detailed_event_body ts event_data event_id = Ok r →
  ∃ event_info markets,
    r = JDict [ ("success", JBool true);
                ("event_id", JStr event_id);
                ("timestamp", JStr ts);
                ("event_info", JDict event_info);
                ("markets_count", JInt (Z.of_nat (length markets)));
                ("betting_markets", JList markets) ]
    ∧ Forall displayable_market markets.
Proof.
  unfold detailed_event_body.
  repeat match goal with
         | |- context [bind (py_get_default ?x ?k ?d) _] =>
             destruct (py_get_default x k d); cbn [bind]; [|done]
         end.
  destruct (py_len _) as [n|] eqn:Hlen; cbn [bind]; [|done].
  destruct (py_iter _) as [markets|] eqn:Hiter; cbn [bind]; [|done].
  destruct (map_result market_info markets) as [infos|] eqn:Hinfos; cbn [bind]; [|done].
  intros [= <-].
  destruct (map_result_Forall market_info displayable_market markets infos
              market_info_displayable Hinfos) as [Hdisp Hlength].
  eexists _, infos. split; [|done].
  rewrite Hlength, <- (py_len_iter _ _ _ Hlen Hiter). reflexivity.
Qed.

(** X11: what a successful details result holds, whatever the payload: it
    names the event it was asked for, [markets_count] is the number of its
    market records, and every market record is filed under one of the six
    categories and lists its selections as dicts. *)
Theorem process_detailed_event_success_markets (ts : string) (event_data : json)
    (event_id : string) :
  let r := _process_detailed_event ts event_data event_id in
  success r = Some (JBool true) →
  ∃ markets,
    result_field "betting_markets" r = Some (JList markets)
    ∧ result_field "markets_count" r = Some (JInt (Z.of_nat (length markets)))
    ∧ Forall displayable_market markets
    ∧ result_field "event_id" r = Some (JStr event_id).
Proof.
  intros r. subst r. unfold _process_detailed_event.
  destruct (detailed_event_body ts event_data event_id) as [r|e] eqn:Hbody; [|done].
  destruct (detailed_event_body_shape _ _ _ _ Hbody) as (info & markets & -> & Hdisp).
  intros _. exists markets. by split_and!.
Qed.

Lemma process_detailed_event_success_markets_witness :
  let event_data :=
    JDict [("m", JList [JDict [("t", JInt 99); ("o", JList [JDict [("no", JInt 1)]])]])] in
  success (_process_detailed_event "T" event_data "42") = Some (JBool true)
  ∧ ∃ markets,
      result_field "betting_markets" (_process_detailed_event "T" event_data "42")
      = Some (JList markets)
      ∧ Forall displayable_market markets.
Proof.
  intros event_data.
  assert (success (_process_detailed_event "T" event_data "42") = Some (JBool true))
    as H by reflexivity.
  split; [exact H|].
  destruct (process_detailed_event_success_markets "T" event_data "42" H)
    as (markets & Hm & _ & Hd & _).
  by exists markets.
Defined.


Lemma append_to_keys (category : string) (market : json)
    (groups : list (string * list json)) :
  category ∈ groups.*1 →
  ∃ groups', append_to category market groups = Some groups'
             ∧ groups'.*1 = groups.*1
             ∧ (∀ P : json → Prop,
                  P market → Forall (λ g, Forall P g.2) groups →
                  Forall (λ g, Forall P g.2) groups').
Proof.
  induction groups as [|[k ms] groups IH]; rewrite ?fmap_nil, ?fmap_cons; cbn [fst].
  - by intros ?%elem_of_nil.
  - intros Hin. cbn [append_to].
    destruct (String.eqb_spec category k) as [->|Hne].
    + eexists. split_and!; [reflexivity|by rewrite fmap_cons|].
      intros P Hm [Hms Hrest]%Forall_cons. constructor; [|done].
      cbn [snd] in *. apply Forall_app. split; [done|by apply Forall_singleton].
    + apply elem_of_cons in Hin as [?|Hin]; [done|].
      destruct (IH Hin) as (groups' & -> & Hkeys & HP).
      eexists. split_and!; [reflexivity|by rewrite fmap_cons, Hkeys|].
      intros P Hm [Hms Hrest]%Forall_cons. constructor; [done|]. by apply HP.
Qed.

Lemma categorize_markets_displayable (markets : list json) :
  Forall displayable_market markets →
  ∀ groups,
    groups.*1 = market_categories →
    Forall (λ g, Forall displayable_market g.2) groups →
    ∃ groups', categorize_markets markets groups = Done groups'
               ∧ Forall (λ g, Forall displayable_market g.2) groups'.
Proof.
  induction 1 as [|market markets Hm _ IH]; intros groups Hkeys Hgroups;
    cbn [categorize_markets]; [by eexists|].
  pose proof Hm as (kvs & category & selections & -> & Hcat & Hin & _).
  unfold py_get_default. rewrite Hcat. cbn [default from_option id lift outcome_bind file_market].
  rewrite <- Hkeys in Hin.
  destruct (append_to_keys category (JDict kvs) groups Hin) as (groups' & -> & Hkeys' & HP).
  cbn [outcome_bind]. apply IH; [congruence|]. by apply HP.
Qed.

Lemma selection_line_dict (selection : json) :
  is_dict selection = true → ∃ line, selection_line selection = Ok line.
Proof.
  destruct selection; try discriminate. intros _.
  unfold selection_line, py_get_default. cbn [bind]. by eexists.
Qed.

Lemma market_lines_displayable (market : json) :
  displayable_market market → ∃ lines, market_lines market = Ok lines.
Proof.
  intros (kvs & category & selections & -> & _ & _ & Hsel & Hdicts).
  unfold market_lines, py_get_default. cbn [bind].
  unfold dict_get in Hsel. rewrite Hsel. cbn [py_iter bind].
  destruct (map_result_is_Ok selection_line selections) as [lines ->].
  { eapply Forall_impl; [exact Hdicts|]. apply selection_line_dict. }
  cbn [bind]. by eexists.
Qed.

Lemma category_lines_displayable (groups : list (string * list json)) :
  Forall (λ g, Forall displayable_market g.2) groups →
  ∃ lines, category_lines groups = Ok lines.
Proof.
  induction 1 as [|[category ms] groups Hms _ [there Hthere]]; cbn [category_lines];
    [by eexists|].
  rewrite Hthere. cbn [snd] in Hms.
  destruct ms as [|m ms]; cbn [bind]; [by eexists|].
  destruct (map_result_is_Ok market_lines (m :: ms)) as [blocks ->].
  { eapply Forall_impl; [exact Hms|]. apply market_lines_displayable. }
  cbn [bind]. by eexists.
Qed.

(** X12: the details formatter never fails on what the client hands it.
    Whatever [_process_detailed_event] returns, and whatever
    [get_event_details] returns from the network, [format_event_details]
    produces a text: no [KeyError] when a market is filed under its
    category, no failing access. *)
Theorem format_event_details_never_fails :
  (∀ ts event_data event_id,
     ∃ text, format_event_details (_process_detailed_event ts event_data event_id)
             = Done text)
  ∧ (∀ env event_id use_cache w,
       cached_event use_cache (self w) ("event_details_" +:+ event_id) (clock w) = None →
       ∃ text, format_event_details (get_event_details env event_id use_cache w).1
               = Done text).
Proof.
  assert (∀ r, success r = Some (JBool false) →
               ∃ text, format_event_details r = Done text) as Hfailure.
  { intros [| | | | |kvs]; try discriminate. cbn [success]. intros Hs.
    unfold format_event_details, py_get, py_get_default. rewrite Hs.
    cbn [default from_option id lift outcome_bind truthy negb]. by eexists. }
  assert (∀ ts event_data event_id,
     ∃ text, format_event_details (_process_detailed_event ts event_data event_id)
             = Done text) as Hprocess.
  { intros ts event_data event_id. unfold _process_detailed_event.
    destruct (detailed_event_body ts event_data event_id) as [r|e] eqn:Hbody;
      [|by apply Hfailure].
    destruct (detailed_event_body_shape _ _ _ _ Hbody) as (info & markets & -> & Hdisp).
    unfold format_event_details, py_get, py_get_default.
    cbn [dict_lookup String.eqb Ascii.eqb Bool.eqb default from_option id lift
         outcome_bind truthy negb py_iter].
    destruct (categorize_markets_displayable markets Hdisp empty_market_categories
                eq_refl) as (groups & -> & Hgroups).
    { unfold empty_market_categories. repeat constructor. }
    cbn [outcome_bind].
    destruct (category_lines_displayable groups Hgroups) as [lines ->].
    cbn [lift outcome_bind]. by eexists. }
  split; [exact Hprocess|].
  intros env event_id use_cache w Hmiss. rewrite get_event_details_fetch.
  destruct (event_fetch_miss "event_details_" DetailRequest _process_detailed_event
              "Network error: " env event_id use_cache w Hmiss) as (_ & _ & _ & _ & Hcase).
  destruct (accepted_payload (answer env)) as [payload|].
  - destruct Hcase as [-> _]. apply Hprocess.
  - destruct Hcase as [Hs _]. by apply Hfailure.
Qed.


(** ** The listing and its display *)

Lemma format_match_summary_record (event m : json) :
  match_data event = Ok m →
  ∃ rest, format_match_summary m
          = Ok ((if is_live event then "🔴 LIVE" else "⏰ Scheduled") +:+ rest).
Proof.
  destruct event as [| | | | |kvs]; unfold match_data, py_get, py_get_default;
    cbn [bind]; try done.
  destruct (_extract_main_odds _) as [odds|] eqn:Hodds; cbn [bind]; [|done].
  apply extract_main_odds_keys in Hodds as (d & -> & _).
  intros [= <-]. unfold format_match_summary, py_get, py_get_default.
  cbn [bind dict_lookup String.eqb Ascii.eqb Bool.eqb default from_option id is_live].
  unfold dict_get. destruct d as [|kv d]; cbn [truthy bind]; by eexists.
Qed.

(** X13: the lines of a listing.  [format_match_summary] never fails on a
    record of a successful [_process_matches_data] result, its line opens
    with the LIVE marker exactly when the record's live flag is truthy, and
    so with [live_only] every line of the listing is marked LIVE. *)
Theorem format_match_summary_on_records (ts : string) (api_data : json)
    (limit : option Z) (live_only : bool) :
  success (_process_matches_data ts api_data limit live_only) = Some (JBool true) →
  ∃ ms,
    _process_matches_data ts api_data limit live_only = matches_success ts ms
    ∧ Forall (λ m, ∃ il rest,
                result_field "is_live" m = Some il
                ∧ format_match_summary m
                  = Ok ((if truthy il then "🔴 LIVE" else "⏰ Scheduled") +:+ rest)
                ∧ (live_only = true → truthy il = true)) ms.
Proof.
  unfold _process_matches_data, process_matches_body.
  destruct (py_get api_data "isSuccess") as [is_success|]; cbn [bind]; [|done].
  destruct api_data as [| | | | |kvs]; try done.
  destruct (dict_lookup "data" kvs) as [payload|]; [|done].
  destruct (truthy is_success); [|done].
  destruct (py_get_default payload "events" (JList [])) as [e|]; cbn [bind]; [|done].
  destruct (py_iter e) as [events|]; cbn [bind]; [|done].
  destruct (matches_loop events limit live_only []) as [ms|] eqn:Hloop; cbn [bind];
    [|done].
  intros _. exists ms. split; [done|].
  eapply matches_loop_records; [|apply Forall_nil_2|exact Hloop].
  intros event m Hs Hm.
  destruct (format_match_summary_record event m Hm) as [rest Hfmt].
  destruct event as [| | | | |ekvs]; try (destruct live_only; discriminate).
  assert (result_field "is_live" m = Some (dict_get ekvs "il" (JBool false))) as Hil.
  { revert Hm. unfold match_data, py_get, py_get_default. cbn [bind].
    destruct (_extract_main_odds _); cbn [bind]; [|done]. by intros [= <-]. }
  eexists _, rest. split_and!; [exact Hil|exact Hfmt|].
  intros ->. revert Hs. unfold skipped, py_get_default. cbn [bind].
  intros [= Hs]. by apply negb_false_iff.
Qed.

Lemma format_match_summary_on_records_witness :
  let payload := JDict (sample_payload [sample_event 1 false; sample_event 2 true]) in
  success (_process_matches_data "T" payload (Some 10) true) = Some (JBool true)
  ∧ ∃ ms,
      _process_matches_data "T" payload (Some 10) true = matches_success "T" ms
      ∧ Forall (λ m, ∃ line, format_match_summary m = Ok line) ms.
Proof.
  intros payload.
  assert (success (_process_matches_data "T" payload (Some 10) true) = Some (JBool true))
    as H by reflexivity.
  split; [exact H|].
  destruct (format_match_summary_on_records "T" payload (Some 10) true H)
    as (ms & Hr & Hlines).
  exists ms. split; [exact Hr|].
  eapply Forall_impl; [exact Hlines|]. intros m (il & rest & _ & Hfmt & _). by eexists.
Defined.


(** ** Statistics: what the result depends on *)

Lemma run_blocks_ext (blocks : list (string * string * section))
    (kvs kvs' r : list (string * json)) :
  Forall reads_only_its_key blocks →
  (∀ k, k ∈ map (λ b : string * string * section, b.1.2) blocks →
        dict_lookup k kvs = dict_lookup k kvs') →
  run_blocks blocks kvs r = run_blocks blocks kvs' r.
Proof.
  intros Hreads. revert r.
  induction Hreads as [|[[f key] block] blocks Hread _ IH]; intros r Hkeys; [done|].
  cbn [run_blocks]. unfold reads_only_its_key in Hread. cbn [fst snd] in Hread.
  rewrite (Hread kvs kvs').
  - destruct (block kvs') as [assigned|]; cbn [bind]; [|done].
    apply IH. intros k Hk. apply Hkeys. cbn [map]. by apply elem_of_cons; right.
  - apply Hkeys. cbn [map fst snd]. by apply elem_of_cons; left.
Qed.

(** X14: the statistics result depends on the payload through the twelve
    raw keys of the pipeline only.  Two payloads that agree on those keys
    give the same outcome, success or failure, and the same value in every
    field of the result but the copy of the payload ([raw_data]) a failure
    carries: keys the pipeline does not know can neither change a section
    nor make it fail. *)
Theorem statistics_depends_on_raw_keys (ts event_id : string)
    (kvs kvs' : list (string * json)) :
  (∀ k, k ∈ statistics_raw_keys → dict_lookup k kvs = dict_lookup k kvs') →
  let r := _process_event_statistics ts (JDict kvs) event_id in
  let r' := _process_event_statistics ts (JDict kvs') event_id in
  (success r = Some (JBool true) → r = r')
  ∧ ∀ field, field ≠ "raw_data" → result_field field r = result_field field r'.
Proof.
  intros Hkeys r r'. subst r r'. unfold _process_event_statistics, event_statistics_body.
  rewrite (run_blocks_ext statistics_blocks kvs kvs' _
             statistics_blocks_read_only_their_key Hkeys).
  destruct (run_blocks statistics_blocks kvs' (statistics_initial ts event_id));
    cbn [bind]; split; try done.
  intros field Hfield. cbn [result_field dict_lookup].
  repeat match goal with
         | |- context [String.eqb field ?k] =>
             destruct (String.eqb_spec field k) as [->|_]; [try done; by destruct Hfield|]
         end.
  done.
Qed.

Lemma statistics_depends_on_raw_keys_witness :
  let kvs := [("headToHeadModel", JDict [("totalMatches", JInt 3)])] in
  let kvs' := [("apiVersion", JInt 7);
               ("headToHeadModel", JDict [("totalMatches", JInt 3)])] in
  (∀ k, k ∈ statistics_raw_keys → dict_lookup k kvs = dict_lookup k kvs')
  ∧ _process_event_statistics "T" (JDict kvs) "42"
    = _process_event_statistics "T" (JDict kvs') "42".
Proof.
  intros kvs kvs'.
  assert (∀ k, k ∈ statistics_raw_keys → dict_lookup k kvs = dict_lookup k kvs') as H.
  { intros k Hk. unfold statistics_raw_keys, statistics_blocks in Hk. cbn in Hk.
    rewrite !elem_of_cons, elem_of_nil in Hk.
    destruct Hk as [->|[->|[->|[->|[->|[->|[->|[->|[->|[->|[->|[->|[]]]]]]]]]]]]];
      reflexivity. }
  split; [exact H|].
  exact (proj1 (statistics_depends_on_raw_keys "T" "42" kvs kvs' H) eq_refl).
Defined.

(** The value of a field is that of the last block that assigns it. *)
Lemma run_blocks_last_assignment (field key : string) (block : section) (v : json)
    (before after : list (string * string * section))
    (kvs r o : list (string * json)) :
  run_blocks (before ++ (field, key, block) :: after) kvs r = Ok o →
  block kvs = Ok (Some v) →
  Forall (λ b : string * string * section, b.1.1 = field → b.2 kvs = Ok None) after →
  dict_lookup field o = Some v.
Proof.
  revert r. induction before as [|[[f k] b] before IH]; intros r; cbn [app run_blocks].
  - intros Hrun Hblock Hafter. rewrite Hblock in Hrun. cbn [bind] in Hrun.
    rewrite (run_blocks_unassigned field kvs after Hafter _ _ Hrun).
    rewrite dict_lookup_set. by rewrite decide_True.
  - destruct (b kvs) as [assigned|]; cbn [bind]; [|done]. apply IH.
Qed.


Lemma run_blocks_all_ok (blocks : list (string * string * section))
    (kvs r o : list (string * json)) :
  run_blocks blocks kvs r = Ok o →
  Forall (λ b : string * string * section, ∃ a, b.2 kvs = Ok a) blocks.
Proof.
  revert r. induction blocks as [|[[f k] b] blocks IH]; intros r; cbn [run_blocks];
    [by constructor|].
  destruct (b kvs) as [a|] eqn:Hb; cbn [bind]; [|done].
  intros Hrun. constructor; [by exists a|]. by eapply IH.
Qed.

Lemma when_truthy_assigns (x : json) (value : result json) (a : option json) :
  truthy x = true → when_truthy x value = Ok a → ∃ v, a = Some v.
Proof.
  unfold when_truthy. intros ->. destruct value; cbn [bind]; [|done].
  intros [= <-]. by eexists.
Qed.

(** X15: of two blocks that feed the same field the later one wins.  In an
    accepted payload a non-empty [leagueTableModel] decides
    [tournament_standings], whatever [tournamentStandingsModel] holds; and
    likewise [headToHeadModel] over [recentEventModel],
    [bettingAnalysisModel] over [soccerIddaaAnalysModel] and
    [refereeInformation] over [soccerRefereePageModel]. *)
Theorem statistics_later_block_wins (ts event_id : string) (kvs : list (string * json)) :
  let r := _process_event_statistics ts (JDict kvs) event_id in
  success r = Some (JBool true) →
  (truthy (dict_get kvs "leagueTableModel" (JDict [])) = true →
   ∃ v, league_table_model kvs = Ok (Some v)
        ∧ result_field "tournament_standings" r = Some v)
  ∧ (truthy (dict_get kvs "headToHeadModel" (JDict [])) = true →
     ∃ v, head_to_head_model kvs = Ok (Some v)
          ∧ result_field "head_to_head" r = Some v)
  ∧ (truthy (dict_get kvs "bettingAnalysisModel" (JDict [])) = true →
     ∃ v, betting_analysis_model kvs = Ok (Some v)
          ∧ result_field "betting_analysis" r = Some v)
  ∧ (truthy (dict_get kvs "refereeInformation" (JDict [])) = true →
     ∃ v, referee_information kvs = Ok (Some v)
          ∧ result_field "referee_info" r = Some v).
Proof.
  intros r (o & Hrun & Hout)%process_event_statistics_success. subst r. rewrite Hout.
  cbn [result_field].
  pose proof (run_blocks_all_ok _ _ _ _ Hrun) as Hok.
  assert (∀ n field key (block : section),
    statistics_blocks
    = take n statistics_blocks ++ (field, key, block) :: drop (S n) statistics_blocks →
    Forall (λ b : string * string * section, b.1.1 ≠ field) (drop (S n) statistics_blocks) →
    (∀ a, block kvs = Ok a → ∃ v, a = Some v) →
    ∃ v, block kvs = Ok (Some v) ∧ dict_lookup field o = Some v) as Hlast.
  { intros n field key block Hsplit Hafter Hassigns.
    assert ((field, key, block) ∈ statistics_blocks) as Hin.
    { rewrite Hsplit. apply elem_of_app. right. apply list_elem_of_here. }
    eapply Forall_forall in Hok as [a Ha]; [|exact Hin]. cbn [snd] in Ha.
    destruct (Hassigns a Ha) as [v ->]. exists v. split; [done|].
    rewrite Hsplit in Hrun. eapply run_blocks_last_assignment; [exact Hrun|done|].
    eapply Forall_impl; [exact Hafter|]. by intros b' Hne Heq. }
  split_and!; intros Ht.
  - apply (Hlast 6%nat _ "leagueTableModel"); [reflexivity| |].
    + cbn. repeat constructor; discriminate.
    + intros a. by apply when_truthy_assigns.
  - apply (Hlast 7%nat _ "headToHeadModel"); [reflexivity| |].
    + cbn. repeat constructor; discriminate.
    + intros a. by apply when_truthy_assigns.
  - apply (Hlast 9%nat _ "bettingAnalysisModel"); [reflexivity| |].
    + cbn. repeat constructor; discriminate.
    + intros a. by apply when_truthy_assigns.
  - apply (Hlast 10%nat _ "refereeInformation"); [reflexivity| |].
    + cbn. repeat constructor; discriminate.
    + intros a. by apply when_truthy_assigns.
Qed.

Lemma statistics_later_block_wins_witness :
  let kvs := [ ("tournamentStandingsModel", JList [JDict [("tournamentName", JStr "L")]]);
               ("leagueTableModel", JDict [("homeTeamPosition", JInt 3)]) ] in
  success (_process_event_statistics "T" (JDict kvs) "42") = Some (JBool true)
  ∧ truthy (dict_get kvs "leagueTableModel" (JDict [])) = true
  ∧ ∃ v, league_table_model kvs = Ok (Some v)
         ∧ result_field "tournament_standings"
             (_process_event_statistics "T" (JDict kvs) "42") = Some v.
Proof.
  intros kvs.
  assert (success (_process_event_statistics "T" (JDict kvs) "42") = Some (JBool true))
    as H by reflexivity.
  split; [exact H|]. split; [reflexivity|].
  exact (proj1 (statistics_later_block_wins "T" "42" kvs H) eq_refl).
Defined.

(** X16: the referee section asks for a positive identifier.  In an
    accepted payload without [refereeInformation], a [soccerRefereePageModel]
    whose referee has the integer id [n] fills [referee_info] (with that
    id) when [n] is positive and leaves it the empty mapping otherwise. *)
Theorem statistics_referee_needs_positive_id (ts event_id : string)
    (kvs page referee : list (string * json)) (n : Z) :
  let r := _process_event_statistics ts (JDict kvs) event_id in
  success r = Some (JBool true) →
  dict_lookup "soccerRefereePageModel" kvs = Some (JDict page) →
  dict_lookup "referee" page = Some (JDict referee) →
  dict_get referee "id" (JInt 0) = JInt n →
  truthy (dict_get kvs "refereeInformation" (JDict [])) = false →
  (n ≤ 0 → result_field "referee_info" r = Some (JDict []))
  ∧ (0 < n → ∃ v, result_field "referee_info" r = Some v
                  ∧ result_field "id" v = Some (JInt n)).
Proof.
  intros r (o & Hrun & Hout)%process_event_statistics_success Hpage Href Hid Hinfo.
  subst r. rewrite Hout. cbn [result_field].
  assert (referee_information kvs = Ok None) as Hlater.
  { unfold referee_information, when_truthy. by rewrite Hinfo. }
  assert (page ≠ []) as Hne by (by intros ->).
  assert (soccer_referee_page_model kvs
          = if bool_decide (0 < n) then
              let* v := build
                [ ("id", py_get_in (JDict page) "referee" "id");
                  ("age", py_get_in (JDict page) "referee" "age");
                  ("country",
                     let* r := py_get_default (JDict page) "referee" (JDict []) in
                     py_get_default r "country" (JDict []));
                  ("tournaments",
                     py_get_default (JDict page) "refereeTournaments" (JList []));
                  ("recent_matches",
                     py_get_default (JDict page) "refereeMatches" (JList [])) ] in
              Ok (Some v)
            else Ok None) as Hblock.
  { unfold soccer_referee_page_model. rewrite Hpage.
    destruct page as [|kv page]; [done|]. cbn [truthy].
    unfold py_get_default at 1 2. rewrite Href. cbn [default from_option id bind].
    unfold dict_get in Hid. rewrite Hid. cbn [py_gt_0 bind].
    case_bool_decide as Hn.
    - by rewrite (proj2 (Z.ltb_lt 0 n) Hn).
    - by rewrite (proj2 (Z.ltb_ge 0 n)) by lia. }
  split.
  - intros Hn. rewrite bool_decide_eq_false_2 in Hblock by lia.
    rewrite (run_blocks_unassigned "referee_info" kvs statistics_blocks) with
      (r := statistics_initial ts event_id); [done| |done].
    unfold statistics_blocks. repeat constructor; cbn [fst snd]; try discriminate; done.
  - intros Hn. rewrite bool_decide_eq_true_2 in Hblock by lia.
    revert Hblock. unfold build, py_get_in, py_get, py_get_default.
    cbn [build_fields]. rewrite Href. cbn [default from_option id bind].
    assert (dict_lookup "id" referee = Some (JInt n)) as ->.
    { unfold dict_get in Hid. destruct (dict_lookup "id" referee); cbn in Hid; [congruence|].
      injection Hid as <-. lia. }
    cbn [default from_option id bind]. intros Hblock.
    change statistics_blocks with
      (take 5 statistics_blocks
       ++ ("referee_info", "soccerRefereePageModel", soccer_referee_page_model)
       :: drop 6 statistics_blocks) in Hrun.
    eexists. split.
    + eapply run_blocks_last_assignment; [exact Hrun|exact Hblock|].
      cbn. repeat constructor; cbn [fst snd]; try discriminate; done.
    + reflexivity.
Qed.

Lemma statistics_referee_needs_positive_id_witness :
  let referee := [("id", JInt 0); ("age", JInt 40)] in
  let page := [("referee", JDict referee)] in
  let kvs := [("soccerRefereePageModel", JDict page)] in
  success (_process_event_statistics "T" (JDict kvs) "42") = Some (JBool true)
  ∧ dict_lookup "soccerRefereePageModel" kvs = Some (JDict page)
  ∧ dict_lookup "referee" page = Some (JDict referee)
  ∧ dict_get referee "id" (JInt 0) = JInt 0
  ∧ truthy (dict_get kvs "refereeInformation" (JDict [])) = false
  ∧ result_field "referee_info" (_process_event_statistics "T" (JDict kvs) "42")
    = Some (JDict []).
Proof.
  intros referee page kvs.
  assert (success (_process_event_statistics "T" (JDict kvs) "42") = Some (JBool true))
    as H by reflexivity.
  split_and!; [exact H|reflexivity..|].
  refine (proj1 (statistics_referee_needs_positive_id "T" "42" kvs page referee 0
                   H eq_refl eq_refl eq_refl eq_refl) _). lia.
Defined.


(** ** Market descriptions: errors and unknown codes *)







